(** * A shallow embedding of the New-Financial-Ai dashboard core

    The parts of the TypeScript sources embedded here:
    - the retirement projection of [RetirementCalc] ([calculate], the
      insurance compounding, the cash / portfolio split effects, the plan
      initialiser and its persistence, the pie-chart data);
    - the portfolio state of [App] ([handleAddSymbol],
      [handleRemoveSymbol], [handleQuantityChange], [handleAnalyzePortfolio],
      [handleManualSave], [hasPendingSymbols], the three initialisers, the
      API-key dialog) together with [getApiKey], [extractJson] and
      [analyzePortfolio] of the Gemini service;
    - the search, filter and total of [StockTable] and the schematic curve
      of [AnalysisChart].

    JS numbers are modelled as exact rationals extended with NaN and the
    two infinities: floating-point rounding is not modelled, [Math.round]
    and the IEEE special values are.
    Ages and calendar years are whole numbers, as in the plan's data model. *)

From Stdlib Require Import ZArith QArith Qpower List String Ascii Bool.
From Stdlib Require Import Permutation Lia Qround Lqa.
Set Warnings "-register-all".
Import ListNotations.

(* ------------------------------------------------------------------ *)
(** ** JS numbers *)

Module JsNum.

(** A JS number: a finite value, NaN, or one of the infinities. *)
Inductive num : Type :=
| Fin (q : Q)
| NaN
| PosInf
| NegInf.

Definition neg (x : num) : num :=
  match x with
  | Fin q => Fin (- q)
  | NaN => NaN
  | PosInf => NegInf
  | NegInf => PosInf
  end.

(** [x + y] *)
Definition add (x y : num) : num :=
  match x, y with
  | Fin a, Fin b => Fin (a + b)
  | NaN, _ | _, NaN => NaN
  | PosInf, NegInf | NegInf, PosInf => NaN
  | PosInf, _ | _, PosInf => PosInf
  | NegInf, _ | _, NegInf => NegInf
  end.

(** [x - y] *)
Definition sub (x y : num) : num := add x (neg y).

(** Sign of a non-NaN value: [Some true] positive, [Some false] negative,
    [None] zero. *)
Definition sign (x : num) : option bool :=
  match x with
  | Fin q => match Qcompare q 0 with Gt => Some true | Lt => Some false | Eq => None end
  | PosInf => Some true
  | NegInf => Some false
  | NaN => None
  end.

Definition inf_of (positive : bool) : num := if positive then PosInf else NegInf.

(** [x * y] *)
Definition mul (x y : num) : num :=
  match x, y with
  | Fin a, Fin b => Fin (a * b)
  | NaN, _ | _, NaN => NaN
  | _, _ =>
      match sign x, sign y with
      | Some sx, Some sy => inf_of (Bool.eqb sx sy)
      | _, _ => NaN (* an infinity times zero *)
      end
  end.

(** [x / y] *)
Definition div (x y : num) : num :=
  match x, y with
  | NaN, _ | _, NaN => NaN
  | Fin a, Fin b =>
      if Qeq_bool b 0 then
        match sign x with
        | None => NaN                 (* 0 / 0 *)
        | Some sx => inf_of sx        (* a / 0 *)
        end
      else Fin (a / b)
  | Fin _, _ => Fin 0                 (* finite / infinity *)
  | _, Fin b =>
      match sign y with
      | None => x                     (* infinity / 0 *)
      | Some sy => inf_of (Bool.eqb (match sign x with Some s => s | None => true end) sy)
      end
  | _, _ => NaN                       (* infinity / infinity *)
  end.

(** [x >= y]; every comparison with NaN is false. *)
Definition ge (x y : num) : bool :=
  match x, y with
  | NaN, _ | _, NaN => false
  | Fin a, Fin b => Qle_bool b a
  | PosInf, _ => true
  | _, NegInf => true
  | _, _ => false
  end.

(** [Math.max(x, y)] *)
Definition max (x y : num) : num :=
  match x, y with
  | NaN, _ | _, NaN => NaN
  | _, _ => if ge x y then x else y
  end.

(** [Math.pow(b, e)] for a finite base and a whole exponent. *)
Definition pow (b : Q) (e : Z) : num :=
  if (e <? 0)%Z then (if Qeq_bool b 0 then PosInf else Fin (b ^ e)) else Fin (b ^ e).

End JsNum.

Import JsNum.

(* ------------------------------------------------------------------ *)
(** ** The retirement projection ([RetirementCalc]) *)

Module Retirement.

(** [RetirementPlan] of types.ts. *)
Record RetirementPlan : Type := {
  currentAge : Z;
  retirementAge : Z;
  currentSavings : Q;
  monthlySavings : Q;
  targetMonthlyPension : Q;
  expectedAnnualReturn : Q;
  insurancePrincipal : Q;
  insuranceRate : Q;
  insuranceYearDone : Z
}.

(** [RetirementResult] of types.ts. *)
Record RetirementResult : Type := {
  yearsToRetire_r : Z;
  totalAccumulated : num;
  monthlyPensionPossible : num;
  isGoalReachable : bool;
  shortfall : num;
  advice : string
}.

Section Derived.
Variable plan : RetirementPlan.
(** [new Date().getFullYear()] at render time. *)
Variable currentYear : Z.

Definition yearsToRetire : Z := (retirementAge plan - currentAge plan)%Z.
Definition retireYear : Z := (currentYear + yearsToRetire)%Z.
Definition insuranceCompoundingYears : Z :=
  Z.max 0 (retireYear - insuranceYearDone plan).

(** The locals of [calculate]. *)
Definition monthlyRate : Q := expectedAnnualReturn plan / 100 / 12.
Definition months : Z := (yearsToRetire * 12)%Z.

Definition fvLumpSum : num :=
  mul (Fin (currentSavings plan)) (pow (1 + monthlyRate) months).

Definition fvMonthly : num :=
  mul (Fin (monthlySavings plan))
      (div (sub (pow (1 + monthlyRate) months) (Fin 1)) (Fin monthlyRate)).

Definition fvInsurance : num :=
  mul (Fin (insurancePrincipal plan))
      (pow (1 + insuranceRate plan / 100) insuranceCompoundingYears).

Definition totalAccumulated_of : num :=
  add (add fvLumpSum fvMonthly) fvInsurance.

(** [calculate]: the stored [result] state before and after the call. *)
Definition calculate (result : option RetirementResult) : option RetirementResult :=
  if (yearsToRetire <=? 0)%Z then result
  else
    let total := totalAccumulated_of in
    let safeAnnualWithdrawal := mul total (Fin (4 # 100)) in
    let monthlyPensionPossible := div safeAnnualWithdrawal (Fin 12) in
    let requiredTotal := targetMonthlyPension plan * 12 / (4 # 100) in
    let shortfall := max (Fin 0) (sub (Fin requiredTotal) total) in
    Some {| yearsToRetire_r := yearsToRetire;
            totalAccumulated := total;
            monthlyPensionPossible := monthlyPensionPossible;
            isGoalReachable := ge monthlyPensionPossible (Fin (targetMonthlyPension plan));
            shortfall := shortfall;
            advice := "" |}.

End Derived.

(** The defaults of the plan initialiser. *)
Definition default_plan : RetirementPlan := {|
  currentAge := 30; retirementAge := 65; currentSavings := 1000000;
  monthlySavings := 20000; targetMonthlyPension := 50000;
  expectedAnnualReturn := 6; insurancePrincipal := 200000;
  insuranceRate := 25 # 10; insuranceYearDone := 2022 |}.

End Retirement.

(* ------------------------------------------------------------------ *)
(** ** JSON values, [JSON.parse] and the string operations used *)

Module Json.

(** A parsed JSON value.  Objects keep their keys in insertion order,
    without duplicates. *)
Inductive jval : Type :=
| JNull
| JBool (b : bool)
| JNum (q : Q)
| JStr (s : string)
| JArr (l : list jval)
| JObj (kvs : list (string * jval)).

Definition quote_char : ascii := ascii_of_nat 34.
Definition backslash : ascii := ascii_of_nat 92.

(** Property write on a plain object: an existing key keeps its position. *)
Fixpoint obj_set (kvs : list (string * jval)) (k : string) (v : jval)
  : list (string * jval) :=
  match kvs with
  | [] => [(k, v)]
  | (k', v') :: rest =>
      if String.eqb k k' then (k, v) :: rest else (k', v') :: obj_set rest k v
  end.

Fixpoint obj_get (kvs : list (string * jval)) (k : string) : option jval :=
  match kvs with
  | [] => None
  | (k', v') :: rest => if String.eqb k k' then Some v' else obj_get rest k
  end.

(** JSON whitespace. *)
Definition is_json_ws (c : ascii) : bool :=
  let n := nat_of_ascii c in (n =? 32) || (n =? 9) || (n =? 10) || (n =? 13).

Fixpoint skip_ws (s : string) : string :=
  match s with
  | String c r => if is_json_ws c then skip_ws r else s
  | EmptyString => s
  end.

Definition digit_val (c : ascii) : option Z :=
  let n := nat_of_ascii c in
  if (48 <=? n) && (n <=? 57) then Some (Z.of_nat (n - 48)) else None.

(** A maximal run of decimal digits: its value, its length, the rest. *)
Fixpoint digits (s : string) (acc : Z) (k : nat) : Z * nat * string :=
  match s with
  | String c r =>
      match digit_val c with
      | Some d => digits r (acc * 10 + d)%Z (S k)
      | None => (acc, k, s)
      end
  | EmptyString => (acc, k, s)
  end.

(** The JSON number grammar
    [-? (0 | [1-9][0-9]* ) (. [0-9]+)? ([eE] [+-]? [0-9]+)?], read as an
    exact rational. *)
Definition pnumber (s : string) : option (Q * string) :=
  let '(negative, s1) :=
    match s with String "-" r => (true, r) | _ => (false, s) end in
  let int_part :=
    match s1 with
    | String "0" r => Some (0%Z, r)
    | String c _ =>
        match digit_val c with
        | Some _ => let '(v, _, r) := digits s1 0 0 in Some (v, r)
        | None => None
        end
    | EmptyString => None
    end in
  match int_part with
  | None => None
  | Some (iv, s2) =>
      let frac :=
        match s2 with
        | String "." r =>
            let '(fv, k, r') := digits r 0 0 in
            if (k =? 0)%nat then None else Some (fv, k, r')
        | _ => Some (0%Z, 0%nat, s2)
        end in
      match frac with
      | None => None
      | Some (fv, k, s3) =>
          let exp :=
            match s3 with
            | String c r =>
                if (nat_of_ascii c =? 101) || (nat_of_ascii c =? 69) then
                  let '(eneg, r1) :=
                    match r with
                    | String "-" r' => (true, r')
                    | String "+" r' => (false, r')
                    | _ => (false, r)
                    end in
                  let '(ev, ek, r2) := digits r1 0 0 in
                  if (ek =? 0)%nat then None
                  else Some (if eneg then (- ev)%Z else ev, r2)
                else Some (0%Z, s3)
            | EmptyString => Some (0%Z, s3)
            end in
          match exp with
          | None => None
          | Some (ev, s4) =>
              let mant : Q := (inject_Z iv + inject_Z fv / inject_Z (10 ^ Z.of_nat k))%Q in
              let v : Q := (mant * (inject_Z 10) ^ ev)%Q in
              Some (if negative then (- v)%Q else v, s4)
          end
      end
  end.

Definition hex_val (c : ascii) : option Z :=
  let n := nat_of_ascii c in
  if (48 <=? n) && (n <=? 57) then Some (Z.of_nat (n - 48))
  else if (65 <=? n) && (n <=? 70) then Some (Z.of_nat (n - 55))
  else if (97 <=? n) && (n <=? 102) then Some (Z.of_nat (n - 87))
  else None.

Definition byte_of (z : Z) : ascii := ascii_of_nat (Z.to_nat z).

(** Strings are byte strings holding UTF-8; a [\uXXXX] escape is stored as
    the UTF-8 encoding of its code unit. *)
Definition utf8_of (u : Z) : string :=
  if (u <? 128)%Z then String (byte_of u) EmptyString
  else if (u <? 2048)%Z then
    String (byte_of (192 + u / 64)) (String (byte_of (128 + u mod 64)) EmptyString)
  else
    String (byte_of (224 + u / 4096))
      (String (byte_of (128 + (u / 64) mod 64))
        (String (byte_of (128 + u mod 64)) EmptyString)).

(** The body of a string literal after its opening quote. *)
Fixpoint pstring (s : string) : option (string * string) :=
  match s with
  | EmptyString => None
  | String c r =>
      if Ascii.eqb c quote_char then Some (EmptyString, r)
      else if Ascii.eqb c backslash then
        match r with
        | String "u" (String h1 (String h2 (String h3 (String h4 r')))) =>
            match hex_val h1, hex_val h2, hex_val h3, hex_val h4 with
            | Some a, Some b, Some d, Some e =>
                match pstring r' with
                | Some (body, rest) =>
                    Some (String.append (utf8_of (((a * 16 + b) * 16 + d) * 16 + e)%Z) body, rest)
                | None => None
                end
            | _, _, _, _ => None
            end
        | String e r' =>
            let decoded :=
              if Ascii.eqb e quote_char then Some quote_char
              else if Ascii.eqb e backslash then Some backslash
              else match e with
                   | "/"%char => Some "/"%char
                   | "b"%char => Some (ascii_of_nat 8)
                   | "f"%char => Some (ascii_of_nat 12)
                   | "n"%char => Some (ascii_of_nat 10)
                   | "r"%char => Some (ascii_of_nat 13)
                   | "t"%char => Some (ascii_of_nat 9)
                   | _ => None
                   end in
            match decoded, pstring r' with
            | Some d, Some (body, rest) => Some (String d body, rest)
            | _, _ => None
            end
        | EmptyString => None
        end
      else if (nat_of_ascii c <? 32)%nat then None
      else
        match pstring r with
        | Some (body, rest) => Some (String c body, rest)
        | None => None
        end
  end.

(** [s] starts with the literal [lit]; returns what follows. *)
Definition strip_prefix (lit s : string) : option string :=
  if String.prefix lit s then Some (substring (String.length lit) (String.length s) s)
  else None.

(** A JSON value, an array body and an object body; [fuel] bounds the
    nesting and each step consumes input. *)
Fixpoint pvalue (fuel : nat) (s : string) : option (jval * string) :=
  match fuel with
  | O => None
  | S f =>
      match skip_ws s with
      | EmptyString => None
      | String c r as s' =>
          if Ascii.eqb c "["%char then
            match skip_ws r with
            | String "]" r' => Some (JArr [], r')
            | _ => parr f r []
            end
          else if Ascii.eqb c "{"%char then
            match skip_ws r with
            | String "}" r' => Some (JObj [], r')
            | _ => pobj f r []
            end
          else if Ascii.eqb c quote_char then
            match pstring r with
            | Some (str, r') => Some (JStr str, r')
            | None => None
            end
          else
            match strip_prefix "true" s', strip_prefix "false" s', strip_prefix "null" s' with
            | Some r', _, _ => Some (JBool true, r')
            | _, Some r', _ => Some (JBool false, r')
            | _, _, Some r' => Some (JNull, r')
            | None, None, None =>
                match pnumber s' with
                | Some (q, r') => Some (JNum q, r')
                | None => None
                end
            end
      end
  end
with parr (fuel : nat) (s : string) (acc : list jval) : option (jval * string) :=
  match fuel with
  | O => None
  | S f =>
      match pvalue f s with
      | None => None
      | Some (v, r) =>
          match skip_ws r with
          | String "," r' => parr f r' (acc ++ [v])
          | String "]" r' => Some (JArr (acc ++ [v]), r')
          | _ => None
          end
      end
  end
with pobj (fuel : nat) (s : string) (acc : list (string * jval)) : option (jval * string) :=
  match fuel with
  | O => None
  | S f =>
      match skip_ws s with
      | String c r =>
          if Ascii.eqb c quote_char then
            match pstring r with
            | None => None
            | Some (k, r1) =>
                match skip_ws r1 with
                | String ":" r2 =>
                    match pvalue f r2 with
                    | None => None
                    | Some (v, r3) =>
                        match skip_ws r3 with
                        | String "," r4 => pobj f r4 (obj_set acc k v)
                        | String "}" r4 => Some (JObj (obj_set acc k v), r4)
                        | _ => None
                        end
                    end
                | _ => None
                end
            end
          else None
      | EmptyString => None
      end
  end.

(** [JSON.parse(s)]: [None] when it throws a [SyntaxError]. *)
Definition JSON_parse (s : string) : option jval :=
  match pvalue (2 * String.length s + 2) s with
  | Some (v, rest) =>
      match skip_ws rest with EmptyString => Some v | _ => None end
  | None => None
  end.

End Json.

Import Json.

(* ------------------------------------------------------------------ *)
(** ** Object keys, string helpers of the handlers *)

Module JsString.

(** Decimal rendering of a natural number. *)
Fixpoint string_of_nat_aux (fuel n : nat) (acc : string) : string :=
  match fuel with
  | O => acc
  | S f =>
      let d := String (ascii_of_nat (48 + n mod 10)) acc in
      if (n <? 10)%nat then d else string_of_nat_aux f (n / 10) d
  end.

Definition string_of_nat (n : nat) : string := string_of_nat_aux (S n) n EmptyString.

(** A canonical array-index key: ["0"] or digits without a leading zero,
    below [2^32 - 1]. *)
Definition index_value (k : string) : option Z :=
  match k with
  | EmptyString => None
  | String c _ =>
      let '(v, n, rest) := digits k 0 0 in
      match rest with
      | EmptyString =>
          if ((n =? 1)%nat || negb (Ascii.eqb c "0"%char)) && (v <? 4294967295)%Z
          then Some v else None
      | _ => None
      end
  end.

Definition is_index_key (k : string) : bool :=
  match index_value k with Some _ => true | None => false end.

Definition index_or_zero (k : string) : Z :=
  match index_value k with Some v => v | None => 0%Z end.

Fixpoint insert_index (k : string) (ks : list string) : list string :=
  match ks with
  | [] => [k]
  | k' :: rest =>
      if (index_or_zero k <=? index_or_zero k')%Z then k :: ks else k' :: insert_index k rest
  end.

Fixpoint sort_indices (ks : list string) : list string :=
  match ks with
  | [] => []
  | k :: rest => insert_index k (sort_indices rest)
  end.

(** [Object.keys(v)] on a parsed value; [None] when it throws (on [null]).
    Property order: array indices ascending, then the other keys in
    insertion order. *)
Definition Object_keys (v : jval) : option (list string) :=
  match v with
  | JNull => None
  | JObj kvs =>
      let ks := map fst kvs in
      Some (sort_indices (filter is_index_key ks) ++ filter (fun k => negb (is_index_key k)) ks)
  | JArr l => Some (map string_of_nat (seq 0 (List.length l)))
  | JStr s => Some (map string_of_nat (seq 0 (String.length s)))
  | JNum _ | JBool _ => Some []
  end.

(** [.length === 0] on a parsed value; [None] when the access throws. *)
Definition length_is_zero (v : jval) : option bool :=
  match v with
  | JNull => None
  | JArr l => Some (match l with [] => true | _ => false end)
  | JStr s => Some (String.length s =? 0)%nat
  | JObj kvs =>
      Some (match obj_get kvs "length" with Some (JNum q) => Qeq_bool q 0 | _ => false end)
  | JNum _ | JBool _ => Some false
  end.

(** The separator class of [/[, ]+/]. *)
Definition is_sep (c : ascii) : bool := Ascii.eqb c ","%char || Ascii.eqb c " "%char.

(** [s.split(/[, ]+/)]: every maximal run of separators splits once. *)
Fixpoint split_go (s cur : string) (prev_sep : bool) : list string :=
  match s with
  | EmptyString => [cur]
  | String c r =>
      if is_sep c then
        if prev_sep then split_go r cur true else cur :: split_go r EmptyString true
      else split_go r (String.append cur (String c EmptyString)) false
  end.

Definition split_comma_space (s : string) : list string := split_go s EmptyString false.

(** White space removed by [trim] (the ASCII part of the JS class). *)
Definition is_js_ws (c : ascii) : bool :=
  let n := nat_of_ascii c in ((9 <=? n) && (n <=? 13)) || (n =? 32).

Fixpoint drop_ws (l : list ascii) : list ascii :=
  match l with
  | c :: r => if is_js_ws c then drop_ws r else l
  | [] => []
  end.

Definition trim (s : string) : string :=
  string_of_list_ascii (rev (drop_ws (rev (drop_ws (list_ascii_of_string s))))).

(** [toUpperCase] on the ASCII letters. *)
Definition upper_char (c : ascii) : ascii :=
  let n := nat_of_ascii c in
  if (97 <=? n) && (n <=? 122) then ascii_of_nat (n - 32) else c.

Definition toUpperCase (s : string) : string :=
  string_of_list_ascii (map upper_char (list_ascii_of_string s)).

End JsString.

Import JsString.

(* ------------------------------------------------------------------ *)
(** ** The Gemini service: [extractJson] and [analyzePortfolio] *)

Module Service.

Definition fence_json : string := "```json".
Definition fence : string := "```".

(** The capture of [/```json([\s\S]*?)```/]. *)
Definition json_block (text : string) : option string :=
  match String.index 0 fence_json text with
  | None => None
  | Some i =>
      let start := (i + String.length fence_json)%nat in
      match String.index start fence text with
      | None => None
      | Some j => Some (substring start (j - start)%nat text)
      end
  end.

(** The whole match of [/\[([\s\S]*?)\]/]. *)
Definition bracket_match (text : string) : option string :=
  match String.index 0 "[" text with
  | None => None
  | Some i =>
      match String.index (S i) "]" text with
      | None => None
      | Some j => Some (substring i (S j - i)%nat text)
      end
  end.

(** [extractJson]: every [JSON.parse] failure lands in the [catch],
    which returns [[]]. *)
Definition extractJson (text : string) : jval :=
  let parse_or_empty t := match JSON_parse t with Some v => v | None => JArr [] end in
  match json_block text with
  | Some inner =>
      if String.eqb inner "" then
        match bracket_match text with
        | Some m => parse_or_empty m
        | None => parse_or_empty text
        end
      else parse_or_empty inner
  | None =>
      match bracket_match text with
      | Some m => parse_or_empty m
      | None => parse_or_empty text
      end
  end.

(** What the model call [ai.models.generateContent] does: it rejects
    (network or credential failure), or resolves with [response.text],
    which may be undefined. *)
Inductive ai_call : Type :=
| CallRejects
| CallResolves (text : option string).

(** [analyzePortfolio(symbols)]: [None] when the promise rejects.
    [hasKey] is whether [getApiKey] finds a key; [getAIClient] throws
    otherwise. *)
Definition analyzePortfolio (symbols : list string) (hasKey : bool) (call : ai_call)
  : option jval :=
  match symbols with
  | [] => Some (JArr [])
  | _ =>
      if negb hasKey then None
      else
        match call with
        | CallRejects => None
        | CallResolves t =>
            let text := match t with
                        | None => "[]"%string
                        | Some s => if String.eqb s "" then "[]"%string else s
                        end in
            Some (extractJson text)
        end
  end.

End Service.

Import Service.

(* ------------------------------------------------------------------ *)
(** ** The portfolio state of [App] *)

Module App.

(** A value held by [localStorage]: written by [JSON.stringify] from a
    value, or any other text. *)
Inductive stored : Type :=
| SJson (v : jval)
| SRaw (s : string).

Definition storage : Type := string -> option stored.

Definition setItem (st : storage) (k : string) (v : stored) : storage :=
  fun k' => if String.eqb k' k then Some v else st k'.

(** [JSON.parse] of a stored text. *)
Definition parse_stored (x : stored) : option jval :=
  match x with
  | SJson v => Some v
  | SRaw s => JSON_parse s
  end.

(** Truthiness of the string [getItem] returned. *)
Definition truthy_stored (x : stored) : bool :=
  match x with
  | SJson _ => true
  | SRaw s => negb (String.eqb s "")
  end.

Definition symbols_key : string := "finance_portfolio_symbols".
Definition quantities_key : string := "finance_stock_quantities".
Definition data_key : string := "finance_portfolio_data".

Definition symbols_json (l : list string) : stored := SJson (JArr (map JStr l)).

(** The [useState] initialiser of [mySymbols]: the initial value and the
    storage after it. Every exception inside the [try] yields [[]]. *)
Definition init_mySymbols (st : storage) : jval * storage :=
  let caught := (JArr [], st) in
  let parsed :=
    match st symbols_key with
    | Some x => if truthy_stored x then parse_stored x else Some (JArr [])
    | None => Some (JArr [])
    end in
  match parsed with
  | None => caught
  | Some symbols =>
      match length_is_zero symbols with
      | None => caught
      | Some false => (symbols, st)
      | Some true =>
          match st quantities_key with
          | Some x =>
              if truthy_stored x then
                match parse_stored x with
                | None => caught
                | Some qtyMap =>
                    match Object_keys qtyMap with
                    | None => caught
                    | Some [] => (symbols, st)
                    | Some recovered =>
                        (JArr (map JStr recovered),
                         setItem st symbols_key (symbols_json recovered))
                    end
                end
              else (symbols, st)
          | None => (symbols, st)
          end
      end
  end.

(** The state the handlers read and write. *)
Record AppState : Type := {
  mySymbols : list string;
  stockQuantities : list (string * jval);
  portfolioStocks : jval;
  errorMsg : option string;
  inputSymbol : string;
  store : storage
}.

(** The token map of [handleAddSymbol]. *)
Definition clean_symbol (s : string) : string :=
  let cleanS := toUpperCase (trim s) in
  if String.eqb cleanS "304" then "3042"%string else cleanS.

Definition includes (l : list string) (s : string) : bool := existsb (String.eqb s) l.

Definition newSymbols_of (input : string) : list string :=
  filter (fun s => negb (String.eqb s "")) (map clean_symbol (split_comma_space input)).

Definition uniqueNewSymbols_of (syms : list string) (input : string) : list string :=
  filter (fun s => negb (includes syms s)) (newSymbols_of input).

Definition handleAddSymbol (st : AppState) : AppState :=
  if String.eqb (inputSymbol st) "" then st
  else
    match uniqueNewSymbols_of (mySymbols st) (inputSymbol st) with
    | [] => st
    | unique =>
        let updatedList := mySymbols st ++ unique in
        {| mySymbols := updatedList;
           stockQuantities := stockQuantities st;
           portfolioStocks := portfolioStocks st;
           errorMsg := errorMsg st;
           inputSymbol := "";
           store := setItem (store st) symbols_key (symbols_json updatedList) |}
    end.

(** [s.symbol]: [None] when the access throws (on [null]), [Some None]
    when the property is undefined. *)
Definition symbol_of (v : jval) : option (option jval) :=
  match v with
  | JNull => None
  | JObj kvs => Some (obj_get kvs "symbol")
  | _ => Some None
  end.

Definition is_symbol (f : option jval) (s : string) : bool :=
  match f with Some (JStr s') => String.eqb s' s | _ => false end.

(** [prev.filter(s => s.symbol !== symbolToRemove)] on an array. *)
Fixpoint filter_stocks (symbolToRemove : string) (l : list jval) : option (list jval) :=
  match l with
  | [] => Some []
  | v :: rest =>
      match symbol_of v, filter_stocks symbolToRemove rest with
      | Some f, Some rest' => Some (if is_symbol f symbolToRemove then rest' else v :: rest')
      | _, _ => None
      end
  end.

(** [handleRemoveSymbol]; [None] when the state updater throws. *)
Definition handleRemoveSymbol (st : AppState) (symbolToRemove : string) : option AppState :=
  let updatedList := filter (fun s => negb (String.eqb s symbolToRemove)) (mySymbols st) in
  let store1 := setItem (store st) symbols_key (symbols_json updatedList) in
  match portfolioStocks st with
  | JArr prev =>
      match filter_stocks symbolToRemove prev with
      | Some updated =>
          Some {| mySymbols := updatedList;
                  stockQuantities := stockQuantities st;
                  portfolioStocks := JArr updated;
                  errorMsg := errorMsg st;
                  inputSymbol := inputSymbol st;
                  store := setItem store1 data_key (SJson (JArr updated)) |}
      | None => None
      end
  | _ => None
  end.

(** [handleQuantityChange]: [{ ...prev, [symbol]: qty }], saved at once. *)
Definition handleQuantityChange (st : AppState) (symbol : string) (qty : Q) : AppState :=
  let updated := obj_set (stockQuantities st) symbol (JNum qty) in
  {| mySymbols := mySymbols st;
     stockQuantities := updated;
     portfolioStocks := portfolioStocks st;
     errorMsg := errorMsg st;
     inputSymbol := inputSymbol st;
     store := setItem (store st) quantities_key (SJson (JObj updated)) |}.

Definition analyze_error : string := "分析失敗。請確認您的 API 金鑰是否正確。".

(** [handleAnalyzePortfolio]; the loading flag is not modelled. *)
Definition handleAnalyzePortfolio (st : AppState) (hasKey : bool) (call : ai_call) : AppState :=
  match mySymbols st with
  | [] => st
  | _ =>
      match analyzePortfolio (mySymbols st) hasKey call with
      | None =>
          {| mySymbols := mySymbols st;
             stockQuantities := stockQuantities st;
             portfolioStocks := portfolioStocks st;
             errorMsg := Some analyze_error;
             inputSymbol := inputSymbol st;
             store := store st |}
      | Some data =>
          {| mySymbols := mySymbols st;
             stockQuantities := stockQuantities st;
             portfolioStocks := data;
             errorMsg := None;
             inputSymbol := inputSymbol st;
             store := setItem (store st) data_key (SJson data) |}
      end
  end.

(** [portfolioStocks.map(s => s.symbol)] *)
Definition analyzedSymbols (v : jval) : option (list (option jval)) :=
  match v with
  | JArr l =>
      fold_right (fun x acc => match symbol_of x, acc with
                               | Some f, Some r => Some (f :: r)
                               | _, _ => None
                               end) (Some []) l
  | _ => None
  end.

Definition analyzed_includes (a : list (option jval)) (s : string) : bool :=
  existsb (fun f => is_symbol f s) a.

(** [hasPendingSymbols]; [None] when the memo throws. *)
Definition hasPendingSymbols (st : AppState) : option bool :=
  match mySymbols st with
  | [] => Some false
  | _ =>
      match length_is_zero (portfolioStocks st) with
      | None => None
      | Some true => Some true
      | Some false =>
          match analyzedSymbols (portfolioStocks st) with
          | None => None
          | Some a => Some (existsb (fun s => negb (analyzed_includes a s)) (mySymbols st))
          end
      end
  end.

(** The callback of [mySymbols.some] for one symbol: [s] is watched and
    absent from the analysed symbols. *)
Definition pending_symbol (st : AppState) (s : string) : bool :=
  includes (mySymbols st) s &&
  match analyzedSymbols (portfolioStocks st) with
  | Some a => negb (analyzed_includes a s)
  | None => true
  end.

End App.

Import App.

(* ------------------------------------------------------------------ *)
(** ** Cash and portfolio value in [RetirementCalc] *)

Module CashSync.

(** The fields of a [StockAnalysis] prop that the portfolio value reads. *)
Record StockView : Type := { sv_symbol : string; sv_currentPrice : Q }.

Fixpoint qty_lookup (q : list (string * Q)) (k : string) : option Q :=
  match q with
  | [] => None
  | (k', v) :: rest => if String.eqb k k' then Some v else qty_lookup rest k
  end.

(** [stockQuantities[stock.symbol] || 0] *)
Definition qty_or_zero (q : list (string * Q)) (k : string) : Q :=
  match qty_lookup q k with Some v => v | None => 0 end.

(** [portfolioTotalValue]: the [reduce] over the analysis entries. *)
Definition portfolioTotalValue (stocks : list StockView) (q : list (string * Q)) : Q :=
  fold_left (fun sum stock => sum + sv_currentPrice stock * qty_or_zero q (sv_symbol stock))
            stocks 0.

(** The component state this part reads: [plan.currentSavings],
    [cashSavings] and the two props. *)
Record CalcState : Type := {
  planSavings : Q;
  cashSavings : Q;
  stocks : list StockView;
  quantities : list (string * Q)
}.

Definition pv (st : CalcState) : Q := portfolioTotalValue (stocks st) (quantities st).

Definition with_cash (st : CalcState) (c : Q) : CalcState :=
  {| planSavings := planSavings st; cashSavings := c; stocks := stocks st;
     quantities := quantities st |}.

(** [Math.max(0, x)] *)
Definition max0 (x : Q) : Q := if Qle_bool x 0 then 0 else x.

(** The effect on [[cashSavings, portfolioTotalValue]]. *)
Definition sync_effect (st : CalcState) : CalcState :=
  let totalInvestableAssets := cashSavings st + pv st in
  if negb (Qeq_bool (planSavings st) totalInvestableAssets) then
    {| planSavings := totalInvestableAssets; cashSavings := cashSavings st;
       stocks := stocks st; quantities := quantities st |}
  else st.

(** Mounting: [cashSavings] starts at [0]; the first commit runs the split
    effect (which queues [setCashSavings]) and the sync effect with the
    rendered values; the sync effect runs again when [cashSavings] changed. *)
Definition mount (st0 : CalcState) : CalcState :=
  let rendered := with_cash st0 0 in
  let calculatedCash := max0 (planSavings rendered - pv rendered) in
  let st1 := sync_effect rendered in
  let st2 := with_cash st1 calculatedCash in
  if Qeq_bool calculatedCash 0 then st2 else sync_effect st2.

(** What can change after mounting: the cash input, the portfolio props,
    or another plan field (which none of these effects depends on). *)
Inductive calc_event : Type :=
| SetCash (v : Q)
| SetPortfolio (s : list StockView) (q : list (string * Q))
| EditOtherField.

Definition step (st : CalcState) (ev : calc_event) : CalcState :=
  match ev with
  | SetCash v =>
      let st' := with_cash st v in
      if Qeq_bool v (cashSavings st) then st' else sync_effect st'
  | SetPortfolio s q =>
      let st' := {| planSavings := planSavings st; cashSavings := cashSavings st;
                    stocks := s; quantities := q |} in
      if Qeq_bool (pv st') (pv st) then st' else sync_effect st'
  | EditOtherField => st
  end.

Definition run (st0 : CalcState) (evs : list calc_event) : CalcState :=
  fold_left step evs (mount st0).

End CashSync.

(* ------------------------------------------------------------------ *)
(** ** The plan initialiser and the plan persistence of [RetirementCalc] *)

Module PlanStore.
Import Retirement.

Definition plan_key : string := "finance_retirement_plan".

(** JS truthiness of a parsed value. *)
Definition truthy (v : jval) : bool :=
  match v with
  | JNull => false
  | JBool b => b
  | JNum q => negb (Qeq_bool q 0)
  | JStr s => negb (String.eqb s "")
  | JArr _ | JObj _ => true
  end.

(** [parsed.k]: [None] when the access throws (on [null]), [Some None]
    when the property is undefined. *)
Definition prop_of (parsed : jval) (k : string) : option (option jval) :=
  match parsed with
  | JNull => None
  | JObj kvs => Some (obj_get kvs k)
  | _ => Some None
  end.

(** [parsed.k || d] *)
Definition or_default (f : option jval) (d : jval) : jval :=
  match f with
  | Some v => if truthy v then v else d
  | None => d
  end.

(** A plan as the object [JSON.stringify] writes, fields in declaration
    order. *)
Definition plan_fields (p : RetirementPlan) : list (string * jval) :=
  [("currentAge"%string, JNum (inject_Z (currentAge p)));
   ("retirementAge"%string, JNum (inject_Z (retirementAge p)));
   ("currentSavings"%string, JNum (currentSavings p));
   ("monthlySavings"%string, JNum (monthlySavings p));
   ("targetMonthlyPension"%string, JNum (targetMonthlyPension p));
   ("expectedAnnualReturn"%string, JNum (expectedAnnualReturn p));
   ("insurancePrincipal"%string, JNum (insurancePrincipal p));
   ("insuranceRate"%string, JNum (insuranceRate p));
   ("insuranceYearDone"%string, JNum (inject_Z (insuranceYearDone p)))].

(** The object literal of the [try]: [k: parsed.k || d] for each field in
    order; [None] when a property access throws. *)
Fixpoint read_fields (parsed : jval) (ds : list (string * jval))
  : option (list (string * jval)) :=
  match ds with
  | [] => Some []
  | (k, d) :: rest =>
      match prop_of parsed k, read_fields parsed rest with
      | Some f, Some r => Some ((k, or_default f d) :: r)
      | _, _ => None
      end
  end.

(** The [useState] initialiser of [plan]: the fields of the returned
    object. The literal defaults (of the [||] operands and of the [catch])
    are those of [default_plan]. *)
Definition init_plan (st : storage) : list (string * jval) :=
  let defaults := plan_fields default_plan in
  let parsed :=
    match st plan_key with
    | Some x => if truthy_stored x then parse_stored x else Some (JObj [])
    | None => Some (JObj [])
    end in
  match parsed with
  | None => defaults
  | Some p =>
      match read_fields p defaults with
      | Some fields => fields
      | None => defaults
      end
  end.

(** The effect on [[plan]]: [setItem('finance_retirement_plan', JSON.stringify(plan))]. *)
Definition persist_plan (st : storage) (p : RetirementPlan) : storage :=
  setItem st plan_key (SJson (JObj (plan_fields p))).

(** A plan with every field equal to 0 replaced by its default. *)
Definition reset_zero_fields (p : RetirementPlan) : RetirementPlan := {|
  currentAge := if (currentAge p =? 0)%Z then currentAge default_plan else currentAge p;
  retirementAge := if (retirementAge p =? 0)%Z then retirementAge default_plan else retirementAge p;
  currentSavings := if Qeq_bool (currentSavings p) 0 then currentSavings default_plan
                    else currentSavings p;
  monthlySavings := if Qeq_bool (monthlySavings p) 0 then monthlySavings default_plan
                    else monthlySavings p;
  targetMonthlyPension := if Qeq_bool (targetMonthlyPension p) 0
                          then targetMonthlyPension default_plan else targetMonthlyPension p;
  expectedAnnualReturn := if Qeq_bool (expectedAnnualReturn p) 0
                          then expectedAnnualReturn default_plan else expectedAnnualReturn p;
  insurancePrincipal := if Qeq_bool (insurancePrincipal p) 0
                        then insurancePrincipal default_plan else insurancePrincipal p;
  insuranceRate := if Qeq_bool (insuranceRate p) 0 then insuranceRate default_plan
                   else insuranceRate p;
  insuranceYearDone := if (insuranceYearDone p =? 0)%Z then insuranceYearDone default_plan
                       else insuranceYearDone p |}.

End PlanStore.

(* ------------------------------------------------------------------ *)
(** ** The other initialisers of [App] and [handleManualSave] *)

Module AppStore.

(** The [useState] initialiser of [stockQuantities]. *)
Definition init_stockQuantities (st : storage) : jval :=
  match st quantities_key with
  | Some x =>
      if truthy_stored x then
        match parse_stored x with Some v => v | None => JObj [] end
      else JObj []
  | None => JObj []
  end.

(** The [useState] initialiser of [portfolioStocks]. *)
Definition init_portfolioStocks (st : storage) : jval :=
  match st data_key with
  | Some x =>
      if truthy_stored x then
        match parse_stored x with Some v => v | None => JArr [] end
      else JArr []
  | None => JArr []
  end.

(** Loading the page: the three initialisers in source order (quantities,
    watch-list, analysis); the watch-list initialiser may write back. *)
Definition reload (st : storage) : jval * jval * jval :=
  let q := init_stockQuantities st in
  let (syms, st1) := init_mySymbols st in
  (syms, q, init_portfolioStocks st1).

(** [handleManualSave]: the three [setItem] calls (the toast is not
    modelled). The three backup effects write the same entries. *)
Definition handleManualSave (st : AppState) : AppState := {|
  mySymbols := mySymbols st; stockQuantities := stockQuantities st;
  portfolioStocks := portfolioStocks st; errorMsg := errorMsg st;
  inputSymbol := inputSymbol st;
  store := setItem (setItem (setItem (store st) symbols_key (symbols_json (mySymbols st)))
                            quantities_key (SJson (JObj (stockQuantities st))))
                   data_key (SJson (portfolioStocks st)) |}.

(** Storage holds the three collections of the state. *)
Definition persisted (st : AppState) : Prop :=
  store st symbols_key = Some (symbols_json (mySymbols st)) /\
  store st quantities_key = Some (SJson (JObj (stockQuantities st))) /\
  store st data_key = Some (SJson (portfolioStocks st)).

End AppStore.

(* ------------------------------------------------------------------ *)
(** ** The API key: [getApiKey], the mount check and [handleSaveApiKey] *)

Module ApiKey.

Definition api_key_name : string := "gemini_api_key".

(** [import.meta.env.VITE_API_KEY] and [process.env.API_KEY]; [None] when
    undefined. *)
Record env : Type := { VITE_API_KEY : option string; API_KEY : option string }.

Definition truthy_str (o : option string) : bool :=
  match o with Some s => negb (String.eqb s "") | None => false end.

Definition env_key (e : env) : option stored :=
  if truthy_str (VITE_API_KEY e) then option_map SRaw (VITE_API_KEY e)
  else if truthy_str (API_KEY e) then option_map SRaw (API_KEY e)
  else None.

(** [getApiKey]: the stored key, else the Vite key, else the process key. *)
Definition getApiKey (st : storage) (e : env) : option stored :=
  match st api_key_name with
  | Some x => if truthy_stored x then Some x else env_key e
  | None => env_key e
  end.

(** The mount effect of [App]: whether it opens the key dialog (otherwise
    it fetches the trends). *)
Definition shows_key_modal (st : storage) (e : env) : bool :=
  let storedKey := match st api_key_name with Some x => truthy_stored x | None => false end in
  let hasEnvKey := truthy_str (API_KEY e) || truthy_str (VITE_API_KEY e) in
  negb storedKey && negb hasEnvKey.

(** [handleSaveApiKey]: the storage after the call and whether the dialog
    is closed and the trends fetched. *)
Definition handleSaveApiKey (st : storage) (apiKeyInput : string) : storage * bool :=
  if negb (String.eqb (trim apiKeyInput) "") then
    (setItem st api_key_name (SRaw (trim apiKeyInput)), true)
  else (st, false).

End ApiKey.

(* ------------------------------------------------------------------ *)
(** ** The search, filter and total of [StockTable] *)

Module Table.
Import CashSync.

(** The fields of a [StockAnalysis] the table's filter and total read. *)
Record StockRow : Type := {
  symbol : string;
  name : string;
  recommendation : string;
  currentPrice : Q
}.

(** [toLowerCase] on the ASCII letters. *)
Definition lower_char (c : ascii) : ascii :=
  let n := nat_of_ascii c in
  if (65 <=? n) && (n <=? 90) then ascii_of_nat (n + 32) else c.

Definition toLowerCase (s : string) : string :=
  string_of_list_ascii (map lower_char (list_ascii_of_string s)).

(** [hay.includes(needle)] *)
Fixpoint str_includes (hay needle : string) : bool :=
  prefix needle hay ||
  match hay with
  | EmptyString => false
  | String _ r => str_includes r needle
  end.

(** [filteredStocks] *)
Definition filteredStocks (stocks : list StockRow) (searchTerm filterType : string)
  : list StockRow :=
  filter (fun stock =>
            let searchLower := toLowerCase searchTerm in
            let matchesSearch :=
              str_includes (toLowerCase (symbol stock)) searchLower ||
              str_includes (toLowerCase (name stock)) searchLower in
            let matchesFilter :=
              String.eqb filterType "ALL" || String.eqb (recommendation stock) filterType in
            matchesSearch && matchesFilter) stocks.

(** [displayedTotal]; [quantities] is the optional prop. *)
Definition displayedTotal (quantities : option (list (string * Q)))
  (filtered : list StockRow) : Q :=
  match quantities with
  | None => 0
  | Some q =>
      fold_left (fun sum stock => sum + currentPrice stock * qty_or_zero q (symbol stock))
                filtered 0
  end.

(** The same entry as [RetirementCalc] reads it. *)
Definition view (s : StockRow) : StockView :=
  {| sv_symbol := symbol s; sv_currentPrice := currentPrice s |}.

End Table.

(* ------------------------------------------------------------------ *)
(** ** The schematic price curve of [AnalysisChart] *)

Module Chart.

Record ChartInput : Type := { high52Week : Q; low52Week : Q; currentPrice : Q }.

Record ChartPoint : Type := { point_name : string; price : Q }.

(** [Math.min] and [Math.max] on finite values. *)
Definition js_min (a b : Q) : Q := if Qle_bool a b then a else b.
Definition js_max (a b : Q) : Q := if Qle_bool b a then a else b.

Definition points : nat := 20.

Section Curve.
(** [Math.sin] and [Math.PI]. *)
Variable Math_sin : Q -> Q.
Variable Math_PI : Q.
Variable data : ChartInput.

Definition range : Q := high52Week data - low52Week data.

(** The callback of [Array.from] for index [i]. *)
Definition point (i : nat) : ChartPoint :=
  let progress := inject_Z (Z.of_nat i) / inject_Z (Z.of_nat (points - 1)) in
  let wave := Math_sin (progress * Math_PI * 2) * (range * (2 # 10)) in
  let estimatedValue :=
    low52Week data + (currentPrice data - low52Week data) * progress + wave in
  {| point_name := ("T-" ++ string_of_nat (points - i))%string;
     price := js_max (low52Week data) (js_min (high52Week data) estimatedValue) |}.

(** [chartData[chartData.length - 1].price = currentPrice] (the array is
    never empty). *)
Fixpoint set_last_price (l : list ChartPoint) (p : Q) : list ChartPoint :=
  match l with
  | [] => []
  | [x] => [{| point_name := point_name x; price := p |}]
  | x :: rest => x :: set_last_price rest p
  end.

Definition chartData : list ChartPoint :=
  set_last_price (map point (seq 0 points)) (currentPrice data).

End Curve.

End Chart.

(* ------------------------------------------------------------------ *)
(** ** The pie-chart data of [RetirementCalc] *)

Module Breakdown.
Import Retirement.

(** [Math.round]: the nearest integer, halves rounded up. *)
Definition js_round (x : num) : num :=
  match x with
  | Fin q => Fin (inject_Z (Qfloor (q + (1 # 2))))
  | other => other
  end.

Section Slices.
Variable plan : RetirementPlan.
Variable currentYear : Z.

Definition insuranceFinalValue : num := js_round (fvInsurance plan currentYear).

Definition principal : Q := monthlySavings plan * 12 * inject_Z (yearsToRetire plan).

(** [chartData]: the four slices, empty without a result. *)
Definition chartData (result : option RetirementResult) : list (string * num) :=
  match result with
  | None => []
  | Some r =>
      [("目前投資複利"%string, js_round (fvLumpSum plan));
       ("儲蓄險複利"%string, insuranceFinalValue);
       ("未來投入本金"%string, Fin principal);
       ("未來投入複利"%string,
          js_round (sub (sub (sub (totalAccumulated r) (fvLumpSum plan))
                             insuranceFinalValue) (Fin principal)))]
  end.

End Slices.

(** The sum of the slice values. *)
Definition slice_sum (slices : list (string * num)) : num :=
  fold_left (fun acc s => add acc (snd s)) slices (Fin 0).

End Breakdown.

(* ------------------------------------------------------------------ *)
(** ** Scenarios and spec-side readings used by the properties *)

Module Scenarios.
Import Retirement.

(** The plan of the C1 witness: the default plan with a 0 % return. *)
Definition zero_return_plan : RetirementPlan := {|
  currentAge := 30; retirementAge := 65; currentSavings := 1000000;
  monthlySavings := 20000; targetMonthlyPension := 50000;
  expectedAnnualReturn := 0; insurancePrincipal := 200000;
  insuranceRate := 25 # 10; insuranceYearDone := 2022 |}.

(** A plan whose insurance matures after the retirement year. *)
Definition late_insurance_plan : RetirementPlan := {|
  currentAge := 30; retirementAge := 65; currentSavings := 1000000;
  monthlySavings := 20000; targetMonthlyPension := 50000;
  expectedAnnualReturn := 6; insurancePrincipal := 200000;
  insuranceRate := 25 # 10; insuranceYearDone := 2100 |}.

(** The stored watch-list counts as empty: absent, the empty string, or
    the text of an empty array. *)
Definition stored_watchlist_empty (x : option stored) : Prop :=
  x = None \/ x = Some (SRaw "") \/
  exists y, x = Some y /\ truthy_stored y = true /\ parse_stored y = Some (JArr []).

(** The storage of the C2 example: quantities [{ "2330": 100 }], no
    watch-list. *)
Definition example_storage (sym : option stored) : storage :=
  fun k => if String.eqb k symbols_key then sym
           else if String.eqb k quantities_key
                then Some (SJson (JObj [("2330"%string, JNum 100)]))
                else None.

(** The candidate text [extractJson] hands to [JSON.parse]. *)
Definition extract_candidate (text : string) : string :=
  let fallback := match bracket_match text with Some m => m | None => text end in
  match json_block text with
  | Some inner => if String.eqb inner "" then fallback else inner
  | None => fallback
  end.

Definition empty_storage : storage := fun _ => None.

(** A watched symbol with a prior analysis entry. *)
Definition analysed_state : AppState := {|
  mySymbols := ["2330"%string];
  stockQuantities := [("2330"%string, JNum 100)];
  portfolioStocks := JArr [JObj [("symbol"%string, JStr "2330")]];
  errorMsg := None;
  inputSymbol := "";
  store := empty_storage |}.

Definition with_input (st : AppState) (input : string) : AppState := {|
  mySymbols := mySymbols st; stockQuantities := stockQuantities st;
  portfolioStocks := portfolioStocks st; errorMsg := errorMsg st;
  inputSymbol := input; store := store st |}.

Definition empty_state : AppState := {|
  mySymbols := []; stockQuantities := []; portfolioStocks := JArr [];
  errorMsg := None; inputSymbol := ""; store := empty_storage |}.

(** Spec reading of the tokenizer of [addSymbols]: the non-empty
    maximal runs of non-separator characters. *)
Fixpoint sep_runs (s cur : string) : list string :=
  match s with
  | EmptyString => if String.eqb cur "" then [] else [cur]
  | String c r =>
      if is_sep c then
        if String.eqb cur "" then sep_runs r "" else cur :: sep_runs r ""
      else sep_runs r (String.append cur (String c EmptyString))
  end.

(** Spec reading of [addSymbols]: normalise each token, drop empty ones
    and those already watched, append the survivors in input order.
    Returns the new watch-list and the appended sequence. *)
Definition spec_addSymbols (watch : list string) (input : string)
  : list string * list string :=
  let tokens := filter (fun t => negb (String.eqb t "")) (map clean_symbol (sep_runs input "")) in
  let survivors := filter (fun t => negb (includes watch t)) tokens in
  (watch ++ survivors, survivors).

(** Whether [filter] keeps an analysis entry when removing [s]. *)
Definition keeps_entry (s : string) (v : jval) : bool :=
  match symbol_of v with Some f => negb (is_symbol f s) | None => false end.

Definition tab_input : string := ("2330" ++ String (ascii_of_nat 9) "2317")%string.

(** The analysed state once [handleManualSave] has written it. *)
Definition saved_state : AppState := AppStore.handleManualSave analysed_state.

(** A stored plan text that parses to [null]. *)
Definition null_plan_storage : storage :=
  setItem empty_storage PlanStore.plan_key (SRaw "null").

(** A stored non-empty watch-list. *)
Definition watchlist_storage : storage :=
  setItem empty_storage symbols_key (symbols_json ["2330"%string]).

Definition no_env : ApiKey.env := {| ApiKey.VITE_API_KEY := None; ApiKey.API_KEY := None |}.

(** One analysed row of each recommendation. *)
Definition sample_rows : list Table.StockRow :=
  [{| Table.symbol := "2330"; Table.name := "TSMC"; Table.recommendation := "BUY";
      Table.currentPrice := 1000 |};
   {| Table.symbol := "2317"; Table.name := "Hon Hai"; Table.recommendation := "SELL";
      Table.currentPrice := 200 |};
   {| Table.symbol := "0050"; Table.name := "ETF"; Table.recommendation := "HOLD";
      Table.currentPrice := 180 |}].

Definition sample_chart : Chart.ChartInput :=
  {| Chart.high52Week := 100; Chart.low52Week := 50; Chart.currentPrice := 70 |}.

End Scenarios.

Import Scenarios.

(* ================================================================== *)
(** * Properties *)

Module ProjectionFacts.
Import Retirement.

Lemma pow_nonneg_exp (b : Q) (e : Z) : (0 <= e)%Z -> pow b e = Fin (b ^ e).
Proof. intros H. unfold pow. destruct (Z.ltb_spec e 0); [lia | reflexivity]. Qed.

Lemma months_pos (plan : RetirementPlan) :
  (currentAge plan < retirementAge plan)%Z -> (0 < months plan)%Z.
Proof. unfold months, yearsToRetire. lia. Qed.


(** C1 (code): with a zero monthly rate ([expectedAnnualReturn] = 0) and
    [retirementAge] > [currentAge], the annuity term of [calculate] is
    [0 / 0 = NaN], not [monthlySavings * months], and so is the projected
    total. *)
Theorem fvMonthly_zero_rate_NaN (plan : RetirementPlan) (currentYear : Z) :
  (currentAge plan < retirementAge plan)%Z ->
  monthlyRate plan == 0 ->
  fvMonthly plan = NaN /\
  exists r, calculate plan currentYear None = Some r /\ totalAccumulated r = NaN.
Proof.
  intros Hage Hr.
  assert (Hm : fvMonthly plan = NaN).
  { unfold fvMonthly.
    rewrite pow_nonneg_exp by (pose proof (months_pos plan Hage); lia).
    unfold sub, neg, add, div.
    destruct (Qeq_bool (monthlyRate plan) 0) eqn:E.
    2:{ apply Qeq_bool_neq in E. contradiction. }
    assert (H1 : (1 + monthlyRate plan) ^ months plan + - (1) == 0).
    { rewrite Hr. rewrite Qplus_0_r. rewrite Qpower_1. reflexivity. }
    unfold sign. rewrite H1. reflexivity. }
  split; [exact Hm|].
  unfold calculate.
  destruct (Z.leb_spec (yearsToRetire plan) 0) as [Hy|Hy].
  - unfold yearsToRetire in Hy. lia.
  - eexists; split; [reflexivity|]. simpl.
    unfold totalAccumulated_of. rewrite Hm.
    destruct (fvLumpSum plan); reflexivity.
Qed.

Lemma fvMonthly_zero_rate_NaN_witness :
  ((currentAge zero_return_plan < retirementAge zero_return_plan)%Z /\
   monthlyRate zero_return_plan == 0) /\
  (fvMonthly zero_return_plan = NaN /\
   exists r, calculate zero_return_plan 2026 None = Some r /\ totalAccumulated r = NaN).
Proof.
  split.
  - split; [vm_compute; reflexivity | vm_compute; reflexivity].
  - apply (fvMonthly_zero_rate_NaN zero_return_plan 2026);
      [vm_compute; reflexivity | vm_compute; reflexivity].
Defined.

(** C9: the insurance term is [insurancePrincipal * (1 + insuranceRate/100)^years]
    with [years = max(0, retireYear - insuranceYearDone)] and
    [retireYear = currentYear + (retirementAge - currentAge)]; when
    [insuranceYearDone] is after [retireYear] the exponent is 0 and the
    term equals the principal. *)
Theorem fvInsurance_formula (plan : RetirementPlan) (currentYear : Z) :
  let retireYear' := (currentYear + (retirementAge plan - currentAge plan))%Z in
  let years := Z.max 0 (retireYear' - insuranceYearDone plan) in
  fvInsurance plan currentYear =
    Fin (insurancePrincipal plan * (1 + insuranceRate plan / 100) ^ years) /\
  ((retireYear' < insuranceYearDone plan)%Z ->
   insurancePrincipal plan * (1 + insuranceRate plan / 100) ^ years
   == insurancePrincipal plan).
Proof.
  cbv zeta. split.
  - unfold fvInsurance, insuranceCompoundingYears, retireYear, yearsToRetire.
    rewrite pow_nonneg_exp by lia. reflexivity.
  - intros Hlt.
    replace (Z.max 0 _) with 0%Z by lia.
    simpl. ring.
Qed.

Lemma fvInsurance_formula_witness :
  (2026 + (retirementAge late_insurance_plan - currentAge late_insurance_plan)
     < insuranceYearDone late_insurance_plan)%Z /\
  insurancePrincipal late_insurance_plan *
    (1 + insuranceRate late_insurance_plan / 100) ^
      Z.max 0 (2026 + (retirementAge late_insurance_plan - currentAge late_insurance_plan)
               - insuranceYearDone late_insurance_plan)
  == insurancePrincipal late_insurance_plan.
Proof.
  split; [vm_compute; reflexivity|].
  apply (proj2 (fvInsurance_formula late_insurance_plan 2026)). vm_compute. reflexivity.
Defined.

(** C10: when [retirementAge <= currentAge], [calculate] returns before
    [setResult]: the stored result, whatever it was, is unchanged. *)
Theorem calculate_not_computable (plan : RetirementPlan) (currentYear : Z)
  (prev : option RetirementResult) :
  (retirementAge plan <= currentAge plan)%Z ->
  calculate plan currentYear prev = prev.
Proof.
  intros H. unfold calculate, yearsToRetire.
  destruct (Z.leb_spec (retirementAge plan - currentAge plan) 0); [reflexivity | lia].
Qed.

Lemma calculate_not_computable_witness :
  (60 <= 65)%Z /\
  calculate {| currentAge := 65; retirementAge := 60; currentSavings := 1000000;
               monthlySavings := 20000; targetMonthlyPension := 50000;
               expectedAnnualReturn := 6; insurancePrincipal := 200000;
               insuranceRate := 25 # 10; insuranceYearDone := 2022 |} 2026
            (calculate default_plan 2026 None)
  = calculate default_plan 2026 None.
Proof.
  split; [lia|].
  apply calculate_not_computable. simpl. lia.
Defined.

End ProjectionFacts.

Module RecoveryFacts.

Lemma insert_index_perm (k : string) (l : list string) :
  Permutation (insert_index k l) (k :: l).
Proof.
  induction l as [|k' l IH]; simpl; [reflexivity|].
  destruct (index_or_zero k <=? index_or_zero k')%Z; [reflexivity|].
  rewrite IH. apply perm_swap.
Qed.

Lemma sort_indices_perm (l : list string) : Permutation (sort_indices l) l.
Proof.
  induction l as [|k l IH]; simpl; [reflexivity|].
  rewrite insert_index_perm. now apply perm_skip.
Qed.

Lemma filter_split_perm {A} (f : A -> bool) (l : list A) :
  Permutation (filter f l ++ filter (fun x => negb (f x)) l) l.
Proof.
  induction l as [|x l IH]; simpl; [reflexivity|].
  destruct (f x); simpl.
  - now apply perm_skip.
  - rewrite <- Permutation_middle. now apply perm_skip.
Qed.

(** [Object.keys] of an object lists exactly its keys. *)
Lemma Object_keys_obj_perm (kvs : list (string * jval)) :
  exists keys, Object_keys (JObj kvs) = Some keys /\ Permutation keys (map fst kvs).
Proof.
  eexists; split; [reflexivity|].
  rewrite sort_indices_perm. apply filter_split_perm.
Qed.

(** C2 (amended): recovery happens when the stored watch-list is absent,
    empty, or an empty array and the stored quantities parse to an object
    with at least one key: the watch-list becomes that object's keys (a
    permutation of its key set) and is written back at once.  A stored
    watch-list whose text does not parse falls back to [[]] with no
    recovery and no write. *)
Theorem init_mySymbols_recovery (st : storage) :
  (forall y kvs,
     stored_watchlist_empty (st symbols_key) ->
     st quantities_key = Some y -> truthy_stored y = true ->
     parse_stored y = Some (JObj kvs) -> kvs <> [] ->
     exists keys,
       init_mySymbols st = (JArr (map JStr keys), setItem st symbols_key (symbols_json keys)) /\
       Permutation keys (map fst kvs)) /\
  (forall x,
     st symbols_key = Some x -> truthy_stored x = true -> parse_stored x = None ->
     init_mySymbols st = (JArr [], st)).
Proof.
  split.
  - intros y kvs Hsym Hq Ht Hp Hne.
    destruct (Object_keys_obj_perm kvs) as [keys [Hk Hperm]].
    exists keys; split; [|exact Hperm].
    assert (Hkne : keys <> []).
    { intros ->. apply Hne. apply Permutation_nil in Hperm.
      destruct kvs; [reflexivity | discriminate]. }
    unfold init_mySymbols.
    assert (Hparsed : match st symbols_key with
                      | Some x => if truthy_stored x then parse_stored x else Some (JArr [])
                      | None => Some (JArr [])
                      end = Some (JArr [])).
    { destruct Hsym as [H | [H | [x [H [H1 H2]]]]]; rewrite H; simpl; auto.
      now rewrite H1. }
    rewrite Hparsed. simpl. rewrite Hq, Ht, Hp, Hk.
    destruct keys; [contradiction | reflexivity].
  - intros x Hx Ht Hp. unfold init_mySymbols. now rewrite Hx, Ht, Hp.
Qed.

Lemma init_mySymbols_recovery_witness :
  (stored_watchlist_empty (example_storage None symbols_key) /\
   example_storage None quantities_key = Some (SJson (JObj [("2330"%string, JNum 100)])) /\
   truthy_stored (SJson (JObj [("2330"%string, JNum 100)])) = true /\
   parse_stored (SJson (JObj [("2330"%string, JNum 100)])) =
     Some (JObj [("2330"%string, JNum 100)]) /\
   [("2330"%string, JNum 100)] <> []) /\
  exists keys,
    init_mySymbols (example_storage None) =
      (JArr (map JStr keys), setItem (example_storage None) symbols_key (symbols_json keys)) /\
    Permutation keys (map fst [("2330"%string, JNum 100)]).
Proof.
  split.
  - split; [left; reflexivity|].
    split; [reflexivity|]. split; [reflexivity|]. split; [reflexivity|]. discriminate.
  - apply (proj1 (init_mySymbols_recovery (example_storage None))
             (SJson (JObj [("2330"%string, JNum 100)])) [("2330"%string, JNum 100)]);
      [left; reflexivity | reflexivity | reflexivity | reflexivity | discriminate].
Defined.

(** C2 as stated fails: with quantities [{ "2330": 100 }] and a stored
    watch-list text that does not parse, the watch-list falls back to
    [[]] instead of being rebuilt as [["2330"]]. *)
Lemma init_mySymbols_parse_failure_no_recovery :
  parse_stored (SJson (JObj [("2330"%string, JNum 100)])) =
    Some (JObj [("2330"%string, JNum 100)]) /\
  JSON_parse "[2330" = None /\
  fst (init_mySymbols (example_storage (Some (SRaw "[2330")))) = JArr [] /\
  fst (init_mySymbols (example_storage (Some (SRaw "[2330")))) <> JArr [JStr "2330"].
Proof.
  split; [reflexivity|]. split; [vm_compute; reflexivity|].
  split; [vm_compute; reflexivity|].
  vm_compute. discriminate.
Qed.

End RecoveryFacts.

Module AnalysisFacts.

(** [extractJson] parses one candidate and maps a parse failure to [[]]. *)
Lemma extractJson_candidate (text : string) :
  extractJson text = match JSON_parse (extract_candidate text) with
                     | Some v => v
                     | None => JArr []
                     end.
Proof.
  unfold extractJson, extract_candidate.
  destruct (json_block text) as [inner|]; [destruct (String.eqb inner "")|];
    destruct (bracket_match text); reflexivity.
Qed.

(** C3 (amended): when the analysis request fails (no API key, or the
    model call rejects) the error message is set and the watch-list,
    quantities, prior analysis and storage are unchanged; when the response
    text is malformed ([JSON.parse] rejects the candidate [extractJson]
    picks), the call succeeds with [[]]: the analysis collection is replaced
    by the empty array and persisted, and no error is shown. *)
Theorem handleAnalyzePortfolio_failures (st : AppState) (hasKey : bool) (call : ai_call) :
  mySymbols st <> [] ->
  ((hasKey = false \/ call = CallRejects) ->
   handleAnalyzePortfolio st hasKey call =
   {| mySymbols := mySymbols st; stockQuantities := stockQuantities st;
      portfolioStocks := portfolioStocks st; errorMsg := Some analyze_error;
      inputSymbol := inputSymbol st; store := store st |}) /\
  (forall t, hasKey = true -> call = CallResolves (Some t) -> t <> ""%string ->
   JSON_parse (extract_candidate t) = None ->
   handleAnalyzePortfolio st hasKey call =
   {| mySymbols := mySymbols st; stockQuantities := stockQuantities st;
      portfolioStocks := JArr []; errorMsg := None;
      inputSymbol := inputSymbol st;
      store := setItem (store st) data_key (SJson (JArr [])) |}).
Proof.
  intros Hne. unfold handleAnalyzePortfolio, analyzePortfolio.
  destruct (mySymbols st) as [|s0 rest] eqn:Hs; [contradiction|].
  split.
  - intros [-> | ->]; simpl; [reflexivity|]. destruct hasKey; reflexivity.
  - intros t -> -> Ht Hp. simpl.
    apply String.eqb_neq in Ht. rewrite Ht.
    rewrite extractJson_candidate, Hp. reflexivity.
Qed.

Lemma handleAnalyzePortfolio_failures_witness :
  mySymbols analysed_state <> [] /\
  handleAnalyzePortfolio analysed_state false CallRejects =
  {| mySymbols := mySymbols analysed_state;
     stockQuantities := stockQuantities analysed_state;
     portfolioStocks := portfolioStocks analysed_state; errorMsg := Some analyze_error;
     inputSymbol := inputSymbol analysed_state; store := store analysed_state |}.
Proof.
  split; [discriminate|].
  apply (proj1 (handleAnalyzePortfolio_failures analysed_state false CallRejects
                  ltac:(discriminate))).
  left; reflexivity.
Defined.

(** C3 as stated fails: a malformed model answer is not surfaced as an
    error; the prior analysis is replaced by [[]]. *)
Lemma handleAnalyzePortfolio_malformed_wipes :
  let st' := handleAnalyzePortfolio analysed_state true
               (CallResolves (Some "Sorry, I cannot help with that."%string)) in
  portfolioStocks analysed_state <> JArr [] /\
  portfolioStocks st' = JArr [] /\ errorMsg st' = None /\
  store st' data_key = Some (SJson (JArr [])).
Proof.
  vm_compute. split; [discriminate|]. split; [reflexivity|]. split; reflexivity.
Qed.

End AnalysisFacts.

Module HandlerFacts.

Lemma obj_get_set_same (kvs : list (string * jval)) (k : string) (v : jval) :
  obj_get (obj_set kvs k v) k = Some v.
Proof.
  induction kvs as [|[k' v'] rest IH]; simpl.
  - now rewrite String.eqb_refl.
  - destruct (String.eqb k k') eqn:E; simpl.
    + now rewrite String.eqb_refl.
    + now rewrite E.
Qed.

Lemma obj_get_set_other (kvs : list (string * jval)) (k k2 : string) (v : jval) :
  k2 <> k -> obj_get (obj_set kvs k v) k2 = obj_get kvs k2.
Proof.
  intros Hne. induction kvs as [|[k' v'] rest IH]; simpl.
  - apply String.eqb_neq in Hne. now rewrite Hne.
  - destruct (String.eqb k k') eqn:E; simpl.
    + apply String.eqb_eq in E. subst k'.
      apply String.eqb_neq in Hne. now rewrite Hne.
    + destruct (String.eqb k2 k'); [reflexivity | exact IH].
Qed.

(** C4 (amended): [handleQuantityChange] validates nothing: for every
    quantity, negative ones included, it upserts the quantity of that
    symbol, keeps the other entries, and writes the whole mapping to
    storage at once; the watch-list and the analysis are untouched. *)
Theorem handleQuantityChange_upserts (st : AppState) (symbol : string) (qty : Q) :
  let st' := handleQuantityChange st symbol qty in
  obj_get (stockQuantities st') symbol = Some (JNum qty) /\
  (forall k, k <> symbol -> obj_get (stockQuantities st') k = obj_get (stockQuantities st) k) /\
  store st' = setItem (store st) quantities_key (SJson (JObj (stockQuantities st'))) /\
  mySymbols st' = mySymbols st /\ portfolioStocks st' = portfolioStocks st.
Proof.
  cbv zeta. simpl. split; [apply obj_get_set_same|].
  split; [intros k Hk; now apply obj_get_set_other|].
  repeat split.
Qed.

(** C4 as stated fails: a negative quantity is stored and persisted. *)
Lemma handleQuantityChange_negative_accepted :
  let st' := handleQuantityChange empty_state "2330" (-5) in
  obj_get (stockQuantities st') "2330" = Some (JNum (-5)) /\
  store st' quantities_key = Some (SJson (JObj [("2330"%string, JNum (-5))])).
Proof. vm_compute. split; reflexivity. Qed.

(** C5 (code): an input repeating a token appends it twice, so the
    watch-list gets a duplicate although it started empty. *)
Theorem handleAddSymbol_repeated_token :
  mySymbols (handleAddSymbol (with_input empty_state "2330, 2330")) =
    ["2330"%string; "2330"%string] /\
  ~ NoDup (mySymbols (handleAddSymbol (with_input empty_state "2330, 2330"))).
Proof.
  split; [vm_compute; reflexivity|].
  vm_compute. intros H. inversion H as [|x l Hnin Hnd]. apply Hnin. left. reflexivity.
Qed.

Lemma split_go_runs (s cur : string) (prev : bool) :
  (prev = true -> cur = ""%string) ->
  filter (fun t => negb (String.eqb t "")) (split_go s cur prev) = sep_runs s cur.
Proof.
  revert cur prev. induction s as [|c r IH]; intros cur prev Hprev; simpl.
  - destruct (String.eqb cur ""); reflexivity.
  - destruct (is_sep c).
    + destruct prev.
      * rewrite (Hprev eq_refl). simpl. apply IH. reflexivity.
      * simpl. destruct (String.eqb cur ""); simpl; f_equal; apply IH; reflexivity.
    + apply IH. discriminate.
Qed.

Lemma clean_symbol_empty : clean_symbol "" = ""%string.
Proof. reflexivity. Qed.

Lemma filter_clean_nonempty (l : list string) :
  filter (fun t => negb (String.eqb t "")) (map clean_symbol l) =
  filter (fun t => negb (String.eqb t "")) (map clean_symbol
    (filter (fun t => negb (String.eqb t "")) l)).
Proof.
  induction l as [|x l IH]; simpl; [reflexivity|].
  destruct (String.eqb_spec x "") as [->|Hx]; simpl.
  - rewrite ?clean_symbol_empty. simpl. exact IH.
  - destruct (negb (String.eqb (clean_symbol x) "")); [f_equal|]; exact IH.
Qed.

Lemma uniqueNewSymbols_spec (watch : list string) (input : string) :
  uniqueNewSymbols_of watch input = snd (spec_addSymbols watch input).
Proof.
  unfold uniqueNewSymbols_of, newSymbols_of, spec_addSymbols. simpl.
  rewrite (filter_clean_nonempty (split_comma_space input)).
  unfold split_comma_space. rewrite split_go_runs by discriminate. reflexivity.
Qed.

(** C7 (amended): [handleAddSymbol] splits on runs of commas and space
    characters only, trims and upper-cases each token, maps ["304"] to
    ["3042"], drops empty tokens and tokens already watched, and appends
    the survivors in input order; when nothing survives the state is
    unchanged. *)
Theorem handleAddSymbol_refines (st : AppState) :
  mySymbols (handleAddSymbol st) = fst (spec_addSymbols (mySymbols st) (inputSymbol st)) /\
  (snd (spec_addSymbols (mySymbols st) (inputSymbol st)) = [] -> handleAddSymbol st = st).
Proof.
  unfold handleAddSymbol.
  destruct (String.eqb_spec (inputSymbol st) "") as [He|Hne].
  - unfold spec_addSymbols. rewrite He. simpl. rewrite app_nil_r. split; reflexivity.
  - rewrite uniqueNewSymbols_spec.
    unfold spec_addSymbols at 1. simpl fst.
    change (filter (fun t => negb (includes (mySymbols st) t))
              (filter (fun t => negb (String.eqb t "")) (map clean_symbol (sep_runs (inputSymbol st) ""))))
      with (snd (spec_addSymbols (mySymbols st) (inputSymbol st))).
    destruct (snd (spec_addSymbols (mySymbols st) (inputSymbol st))) as [|u us].
    + rewrite app_nil_r. split; reflexivity.
    + split; [reflexivity | discriminate].
Qed.

(** C7 as stated fails: a tab inside the input does not split it. *)
Lemma handleAddSymbol_tab_not_split :
  mySymbols (handleAddSymbol (with_input empty_state tab_input)) = [tab_input] /\
  mySymbols (handleAddSymbol (with_input empty_state tab_input)) <>
    ["2330"%string; "2317"%string].
Proof.
  split; [vm_compute; reflexivity|]. vm_compute. discriminate.
Qed.

End HandlerFacts.

Module RemoveFacts.

Lemma filter_stocks_nonnull (s : string) (l : list jval) :
  Forall (fun v => v <> JNull) l ->
  filter_stocks s l = Some (filter (keeps_entry s) l).
Proof.
  induction l as [|v l IH]; intros Hall; simpl; [reflexivity|].
  inversion Hall as [|? ? Hv Hl]; subst.
  rewrite (IH Hl). unfold keeps_entry.
  destruct v; try contradiction; simpl; try reflexivity.
  destruct (is_symbol (obj_get kvs "symbol") s); reflexivity.
Qed.

Lemma analyzedSymbols_nonnull (l : list jval) :
  Forall (fun v => v <> JNull) l ->
  exists a, analyzedSymbols (JArr l) = Some a /\
    (forall f, In f a -> exists v, In v l /\ symbol_of v = Some f).
Proof.
  induction l as [|v l IH]; intros Hall; simpl.
  - exists []. split; [reflexivity | intros f []].
  - inversion Hall as [|? ? Hv Hl]; subst.
    destruct (IH Hl) as [a [Ha Hin]].
    assert (Hsv : exists f, symbol_of v = Some f) by (destruct v; try contradiction; eexists; reflexivity).
    destruct Hsv as [f0 Hf0].
    exists (f0 :: a). split.
    + simpl in Ha. rewrite Ha, Hf0. reflexivity.
    + intros f [<- | Hf].
      * exists v. split; [left; reflexivity | exact Hf0].
      * destruct (Hin f Hf) as [w [Hw Hsw]]. exists w. split; [right; exact Hw | exact Hsw].
Qed.

Lemma includes_filter_removed (l : list string) (s : string) :
  includes (filter (fun x => negb (String.eqb x s)) l) s = false.
Proof.
  induction l as [|x l IH]; simpl; [reflexivity|].
  destruct (String.eqb_spec x s) as [->|Hx]; simpl; [exact IH|].
  unfold includes in *. simpl.
  destruct (String.eqb_spec s x); [congruence | exact IH].
Qed.

(** C8: on a state whose analysis collection is an array of entries (the
    [StockAnalysis[]] the UI renders), [handleRemoveSymbol s] drops [s]
    from the watch-list and every analysis entry of [s], keeps the other
    entries, leaves the quantities (and their stored copy) exactly as they
    were, writes both changed collections, and leaves [s] not pending. *)
Theorem handleRemoveSymbol_frame (st : AppState) (s : string) (l : list jval) :
  portfolioStocks st = JArr l ->
  Forall (fun v => v <> JNull) l ->
  exists st',
    handleRemoveSymbol st s = Some st' /\
    mySymbols st' = filter (fun x => negb (String.eqb x s)) (mySymbols st) /\
    ~ In s (mySymbols st') /\
    portfolioStocks st' = JArr (filter (keeps_entry s) l) /\
    (exists a, analyzedSymbols (portfolioStocks st') = Some a /\
               analyzed_includes a s = false) /\
    stockQuantities st' = stockQuantities st /\
    store st' quantities_key = store st quantities_key /\
    store st' symbols_key = Some (symbols_json (mySymbols st')) /\
    store st' data_key = Some (SJson (portfolioStocks st')) /\
    pending_symbol st' s = false.
Proof.
  intros Hl Hall.
  unfold handleRemoveSymbol. rewrite Hl, (filter_stocks_nonnull s l Hall).
  eexists. split; [reflexivity|]. simpl.
  assert (Hinc := includes_filter_removed (mySymbols st) s).
  assert (Hkept : Forall (fun v => v <> JNull) (filter (keeps_entry s) l)).
  { apply Forall_forall. intros v Hv. apply filter_In in Hv.
    apply (proj1 (Forall_forall _ l) Hall v (proj1 Hv)). }
  destruct (analyzedSymbols_nonnull _ Hkept) as [a [Ha Hin]].
  assert (Hna : analyzed_includes a s = false).
  { unfold analyzed_includes. apply Bool.not_true_iff_false. intros Hex.
    apply existsb_exists in Hex. destruct Hex as [f [Hf Hfs]].
    destruct (Hin f Hf) as [v [Hv Hsv]].
    apply filter_In in Hv. destruct Hv as [_ Hk].
    unfold keeps_entry in Hk. rewrite Hsv, Hfs in Hk. discriminate. }
  split; [reflexivity|].
  split.
  { intros Hs. unfold includes in Hinc.
    assert (existsb (String.eqb s) (filter (fun x => negb (String.eqb x s)) (mySymbols st)) = true)
      by (apply existsb_exists; exists s; split; [exact Hs | apply String.eqb_refl]).
    congruence. }
  split; [reflexivity|].
  split; [exists a; split; [exact Ha | exact Hna]|].
  split; [reflexivity|].
  unfold setItem. simpl.
  split; [reflexivity|]. split; [reflexivity|]. split; [reflexivity|].
  unfold pending_symbol. simpl. rewrite Hinc. reflexivity.
Qed.

Lemma handleRemoveSymbol_frame_witness :
  (portfolioStocks analysed_state = JArr [JObj [("symbol"%string, JStr "2330")]] /\
   Forall (fun v => v <> JNull) [JObj [("symbol"%string, JStr "2330")]]) /\
  exists st',
    handleRemoveSymbol analysed_state "2330" = Some st' /\
    mySymbols st' = filter (fun x => negb (String.eqb x "2330")) (mySymbols analysed_state) /\
    ~ In "2330"%string (mySymbols st') /\
    portfolioStocks st' = JArr (filter (keeps_entry "2330") [JObj [("symbol"%string, JStr "2330")]]) /\
    (exists a, analyzedSymbols (portfolioStocks st') = Some a /\
               analyzed_includes a "2330" = false) /\
    stockQuantities st' = stockQuantities analysed_state /\
    store st' quantities_key = store analysed_state quantities_key /\
    store st' symbols_key = Some (symbols_json (mySymbols st')) /\
    store st' data_key = Some (SJson (portfolioStocks st')) /\
    pending_symbol st' "2330" = false.
Proof.
  split.
  - split; [reflexivity|]. constructor; [discriminate | constructor].
  - apply (handleRemoveSymbol_frame analysed_state "2330" [JObj [("symbol"%string, JStr "2330")]]).
    + reflexivity.
    + constructor; [discriminate | constructor].
Defined.

End RemoveFacts.

Module CashFacts.
Import CashSync.

Definition cash_inv (st : CalcState) : Prop := planSavings st == cashSavings st + pv st.

Lemma sync_effect_inv (st : CalcState) : cash_inv (sync_effect st).
Proof.
  unfold sync_effect, cash_inv.
  destruct (Qeq_bool (planSavings st) (cashSavings st + pv st)) eqn:E; simpl.
  - apply Qeq_bool_eq in E. exact E.
  - reflexivity.
Qed.

Lemma sync_effect_cash (st : CalcState) : cashSavings (sync_effect st) = cashSavings st.
Proof.
  unfold sync_effect. destruct (negb _); reflexivity.
Qed.

Lemma sync_effect_pv (st : CalcState) : pv (sync_effect st) = pv st.
Proof.
  unfold sync_effect. destruct (negb _); reflexivity.
Qed.

Lemma step_inv (st : CalcState) (ev : calc_event) : cash_inv st -> cash_inv (step st ev).
Proof.
  intros H. destruct ev as [v|s q|]; simpl.
  - destruct (Qeq_bool v (cashSavings st)) eqn:E; [|apply sync_effect_inv].
    apply Qeq_bool_eq in E. unfold cash_inv in *. simpl.
    unfold pv in *. simpl. rewrite E. exact H.
  - match goal with |- context [if ?b then _ else _] => destruct b eqn:E end;
      [|apply sync_effect_inv].
    apply Qeq_bool_eq in E. unfold cash_inv in *. simpl in *.
    rewrite E. exact H.
  - exact H.
Qed.

Lemma mount_inv (st0 : CalcState) :
  cash_inv (mount st0) /\
  cashSavings (mount st0) == max0 (planSavings st0 - pv st0).
Proof.
  unfold mount.
  set (c := max0 (planSavings (with_cash st0 0) - pv (with_cash st0 0))).
  assert (Hpv : pv (with_cash st0 0) = pv st0) by reflexivity.
  assert (Hps : planSavings (with_cash st0 0) = planSavings st0) by reflexivity.
  destruct (Qeq_bool c 0) eqn:E.
  - apply Qeq_bool_eq in E. split.
    + pose proof (sync_effect_inv (with_cash st0 0)) as Hi.
      pose proof (sync_effect_cash (with_cash st0 0)) as Hc.
      unfold cash_inv in *. unfold pv in *. simpl in *.
      rewrite E. rewrite Hc in Hi. simpl in Hi. exact Hi.
    + simpl. unfold c. rewrite Hpv, Hps. reflexivity.
  - split.
    + apply sync_effect_inv.
    + rewrite sync_effect_cash. simpl. unfold c. rewrite Hpv, Hps. reflexivity.
Qed.

(** C6: mounting sets [cashSavings] to [max(0, currentSavings - portfolio
    value)]; afterwards, whatever sequence of cash edits, portfolio changes
    and other field edits follows, [plan.currentSavings] equals
    [cashSavings + portfolioTotalValue] once the effects have run. *)
Theorem cash_portfolio_invariant (st0 : CalcState) (evs : list calc_event) :
  cashSavings (mount st0) == max0 (planSavings st0 - pv st0) /\
  planSavings (run st0 evs) == cashSavings (run st0 evs) + pv (run st0 evs).
Proof.
  destruct (mount_inv st0) as [Hinv Hcash]. split; [exact Hcash|].
  unfold run. generalize (mount st0) Hinv. clear Hinv Hcash.
  induction evs as [|ev evs IH]; intros st Hst; simpl; [exact Hst|].
  apply IH. apply step_inv. exact Hst.
Qed.

End CashFacts.

Module ResultFacts.
Import Retirement Breakdown.

Lemma add_fin_inv (x y : num) (t : Q) :
  add x y = Fin t -> exists a b, x = Fin a /\ y = Fin b /\ t = a + b.
Proof.
  destruct x, y; simpl; intros H; try discriminate.
  injection H as <-. eauto.
Qed.

Lemma goal_threshold (t target : Q) :
  Qle_bool target (t * (4 # 100) / 12) = Qle_bool (target * 12 / (4 # 100) + - t) 0.
Proof.
  apply eq_true_iff_eq. rewrite !Qle_bool_iff.
  setoid_replace (t * (4 # 100) / 12) with (t * (1 # 300)) by field.
  setoid_replace (target * 12 / (4 # 100)) with (target * 300) by field.
  split; intros; lra.
Qed.



(** A NaN projected total (the zero-rate case) is reported as an
    unreachable goal with a NaN pension and a NaN shortfall. *)
Theorem calculate_NaN_total (plan : RetirementPlan) (currentYear : Z)
  (prev : option RetirementResult) :
  (currentAge plan < retirementAge plan)%Z ->
  totalAccumulated_of plan currentYear = NaN ->
  exists r, calculate plan currentYear prev = Some r /\
    monthlyPensionPossible r = NaN /\ isGoalReachable r = false /\ shortfall r = NaN.
Proof.
  intros Hage Ht. unfold calculate.
  destruct (Z.leb_spec (yearsToRetire plan) 0) as [Hy|Hy];
    [unfold yearsToRetire in Hy; lia|].
  rewrite Ht. eexists; split; [reflexivity|]. repeat split.
Qed.

Lemma calculate_NaN_total_witness :
  ((currentAge zero_return_plan < retirementAge zero_return_plan)%Z /\
   totalAccumulated_of zero_return_plan 2026 = NaN) /\
  exists r, calculate zero_return_plan 2026 None = Some r /\
    monthlyPensionPossible r = NaN /\ isGoalReachable r = false /\ shortfall r = NaN.
Proof.
  split; [split; vm_compute; reflexivity|].
  apply calculate_NaN_total; vm_compute; reflexivity.
Defined.

(** With a zero monthly rate the lump-sum term stays finite and equals
    the current savings. *)
Theorem fvLumpSum_zero_rate (plan : RetirementPlan) :
  (currentAge plan <= retirementAge plan)%Z ->
  monthlyRate plan == 0 ->
  exists q, fvLumpSum plan = Fin q /\ q == currentSavings plan.
Proof.
  intros Hage Hr. unfold fvLumpSum.
  rewrite ProjectionFacts.pow_nonneg_exp by (unfold months, yearsToRetire; lia).
  eexists; split; [reflexivity|].
  rewrite Hr, Qplus_0_r, Qpower_1. ring.
Qed.

Lemma fvLumpSum_zero_rate_witness :
  ((currentAge zero_return_plan <= retirementAge zero_return_plan)%Z /\
   monthlyRate zero_return_plan == 0) /\
  exists q, fvLumpSum zero_return_plan = Fin q /\ q == currentSavings zero_return_plan.
Proof.
  split; [split; vm_compute; [discriminate | reflexivity]|].
  apply fvLumpSum_zero_rate; vm_compute; [discriminate | reflexivity].
Defined.


Lemma round_bounds (x : Q) :
  x - (1 # 2) < inject_Z (Qfloor (x + (1 # 2))) <= x + (1 # 2).
Proof.
  pose proof (Qfloor_le (x + (1 # 2))) as H1.
  pose proof (Qlt_floor (x + (1 # 2))) as H2.
  rewrite inject_Z_plus in H2. change (inject_Z 1) with 1 in H2.
  split; lra.
Qed.



End ResultFacts.

Module PlanFacts.
Import Retirement PlanStore.

Lemma Qeq_bool_inject_Z_0 (z : Z) : Qeq_bool (inject_Z z) 0 = (z =? 0)%Z.
Proof.
  apply eq_true_iff_eq. rewrite Qeq_bool_iff, Z.eqb_eq.
  change 0 with (inject_Z 0). rewrite inject_Z_injective. reflexivity.
Qed.


(** No saved plan, an empty or unparseable saved text, or a saved value
    that is not an object ([null], an array, a number, a string) all load
    the default plan. *)
Theorem init_plan_defaults (st : storage) :
  (forall x kvs, st plan_key = Some x -> truthy_stored x = true ->
   parse_stored x <> Some (JObj kvs)) ->
  init_plan st = plan_fields default_plan.
Proof.
  intros H. unfold init_plan.
  destruct (st plan_key) as [x|] eqn:E; [|reflexivity].
  destruct (truthy_stored x) eqn:T; [|reflexivity].
  destruct (parse_stored x) as [v|] eqn:P; [|reflexivity].
  destruct v as [| | | | |kvs]; try reflexivity.
  exfalso. exact (H x kvs eq_refl T P).
Qed.

Lemma init_plan_defaults_witness :
  (forall x kvs, null_plan_storage plan_key = Some x -> truthy_stored x = true ->
   parse_stored x <> Some (JObj kvs)) /\
  init_plan null_plan_storage = plan_fields default_plan.
Proof.
  assert (H : forall x kvs, null_plan_storage plan_key = Some x -> truthy_stored x = true ->
              parse_stored x <> Some (JObj kvs)).
  { intros x kvs Hx _. vm_compute in Hx. injection Hx as <-.
    vm_compute. discriminate. }
  split; [exact H | exact (init_plan_defaults null_plan_storage H)].
Defined.

End PlanFacts.

Module StoreFacts.
Import AppStore.

Lemma setItem_same (st : storage) (k : string) (v : stored) : setItem st k v k = Some v.
Proof. unfold setItem. now rewrite String.eqb_refl. Qed.

Lemma setItem_other (st : storage) (k k' : string) (v : stored) :
  k' <> k -> setItem st k v k' = st k'.
Proof. intros H. unfold setItem. apply String.eqb_neq in H. now rewrite H. Qed.

Create HintDb keys.
Lemma symbols_quantities : quantities_key <> symbols_key. Proof. discriminate. Qed.
Lemma symbols_data : data_key <> symbols_key. Proof. discriminate. Qed.
Lemma quantities_data : data_key <> quantities_key. Proof. discriminate. Qed.
Lemma quantities_symbols : symbols_key <> quantities_key. Proof. discriminate. Qed.
Lemma data_symbols : symbols_key <> data_key. Proof. discriminate. Qed.
Lemma data_quantities : quantities_key <> data_key. Proof. discriminate. Qed.
#[local] Hint Resolve symbols_quantities symbols_data quantities_data
  quantities_symbols data_symbols data_quantities : keys.

Ltac store_simpl :=
  repeat first [ rewrite setItem_same | rewrite setItem_other by auto with keys ].

Lemma existsb_ext_in {A} (f g : A -> bool) (l : list A) :
  (forall x, In x l -> f x = g x) -> existsb f l = existsb g l.
Proof.
  induction l as [|x l IH]; intros H; simpl; [reflexivity|].
  rewrite (H x (or_introl eq_refl)), IH; [reflexivity|].
  intros y Hy. apply H. right. exact Hy.
Qed.

Lemma includes_In (l : list string) (s : string) : In s l -> includes l s = true.
Proof.
  intros H. apply existsb_exists. exists s. split; [exact H | apply String.eqb_refl].
Qed.

(** On an analysis array, [hasPendingSymbols] is true exactly when some
    watched symbol is pending (watched and without an analysis entry). *)
Theorem hasPendingSymbols_some_pending (st : AppState) (l : list jval) :
  portfolioStocks st = JArr l ->
  Forall (fun v => v <> JNull) l ->
  hasPendingSymbols st = Some (existsb (pending_symbol st) (mySymbols st)).
Proof.
  intros Hl Hall. unfold hasPendingSymbols, pending_symbol.
  rewrite Hl. destruct (mySymbols st) as [|s0 rest] eqn:Hs; [reflexivity|].
  destruct l as [|v l'].
  - simpl. rewrite String.eqb_refl. reflexivity.
  - destruct (RemoveFacts.analyzedSymbols_nonnull _ Hall) as [a [Ha _]].
    simpl length_is_zero. cbv iota. rewrite Ha. f_equal.
    apply existsb_ext_in. intros x Hx.
    rewrite (includes_In _ _ Hx). reflexivity.
Qed.

Lemma hasPendingSymbols_some_pending_witness :
  (portfolioStocks analysed_state = JArr [JObj [("symbol"%string, JStr "2330")]] /\
   Forall (fun v => v <> JNull) [JObj [("symbol"%string, JStr "2330")]]) /\
  hasPendingSymbols analysed_state =
    Some (existsb (pending_symbol analysed_state) (mySymbols analysed_state)).
Proof.
  split; [split; [reflexivity | constructor; [discriminate | constructor]]|].
  apply (hasPendingSymbols_some_pending analysed_state [JObj [("symbol"%string, JStr "2330")]]).
  - reflexivity.
  - constructor; [discriminate | constructor].
Defined.

(** Each handler that writes storage keeps it equal to the three
    collections of the state: adding, removing, analysing and setting a
    quantity. *)
Theorem handlers_keep_persisted (st : AppState) :
  persisted st ->
  persisted (handleAddSymbol st) /\
  (forall s q, persisted (handleQuantityChange st s q)) /\
  (forall hasKey call, persisted (handleAnalyzePortfolio st hasKey call)) /\
  (forall s st', handleRemoveSymbol st s = Some st' -> persisted st').
Proof.
  intros Hp. pose proof Hp as (Hs & Hq & Hd).
  split; [|split; [|split]].
  - unfold handleAddSymbol.
    destruct (String.eqb (inputSymbol st) ""); [repeat split; first [reflexivity | assumption]|].
    destruct (uniqueNewSymbols_of (mySymbols st) (inputSymbol st));
      [repeat split; first [reflexivity | assumption]|].
    unfold persisted; simpl. store_simpl. repeat split; first [reflexivity | assumption].
  - intros s q. unfold persisted; simpl. store_simpl. repeat split; first [reflexivity | assumption].
  - intros hasKey call. unfold handleAnalyzePortfolio.
    destruct (mySymbols st); [exact Hp|].
    destruct (analyzePortfolio _ hasKey call); unfold persisted; simpl;
      store_simpl; repeat split; first [reflexivity | assumption].
  - intros s st' H. unfold handleRemoveSymbol in H.
    destruct (portfolioStocks st); try discriminate.
    destruct (filter_stocks s l); try discriminate.
    injection H as <-. unfold persisted; simpl. store_simpl.
    repeat split; first [reflexivity | assumption].
Qed.

Lemma handlers_keep_persisted_witness :
  persisted saved_state /\
  (persisted (handleAddSymbol saved_state) /\
   (forall s q, persisted (handleQuantityChange saved_state s q)) /\
   (forall hasKey call, persisted (handleAnalyzePortfolio saved_state hasKey call)) /\
   (forall s st', handleRemoveSymbol saved_state s = Some st' -> persisted st')).
Proof.
  assert (H : persisted saved_state) by (split; [|split]; reflexivity).
  split; [exact H | exact (handlers_keep_persisted saved_state H)].
Defined.


(** Loading the page over a storage that holds the state's collections
    gives back the same watch-list, quantities and analysis, when the
    watch-list is not empty. *)
Theorem reload_persisted (st : AppState) :
  persisted st -> mySymbols st <> [] ->
  reload (store st) =
    (JArr (map JStr (mySymbols st)), JObj (stockQuantities st), portfolioStocks st).
Proof.
  intros (Hs & Hq & Hd) Hne.
  unfold reload, init_stockQuantities, init_portfolioStocks, init_mySymbols.
  rewrite Hq, Hs. unfold symbols_json. simpl.
  destruct (mySymbols st) as [|s0 rest]; [contradiction|]. simpl.
  rewrite Hd. reflexivity.
Qed.

Lemma reload_persisted_witness :
  (persisted saved_state /\ mySymbols saved_state <> []) /\
  reload (store saved_state) =
    (JArr (map JStr (mySymbols saved_state)), JObj (stockQuantities saved_state),
     portfolioStocks saved_state).
Proof.
  assert (H : persisted saved_state) by (split; [|split]; reflexivity).
  assert (Hne : mySymbols saved_state <> []) by discriminate.
  split; [split; assumption | exact (reload_persisted saved_state H Hne)].
Defined.

(** Removing the last watched symbol does not survive a reload while
    quantities are stored: the watch-list comes back as the keys of the
    stored quantities. *)
Theorem remove_last_symbol_recovered (st st' : AppState) (s : string) :
  store st quantities_key = Some (SJson (JObj (stockQuantities st))) ->
  stockQuantities st <> [] ->
  handleRemoveSymbol st s = Some st' ->
  mySymbols st' = [] ->
  exists keys,
    fst (init_mySymbols (store st')) = JArr (map JStr keys) /\ keys <> [] /\
    Permutation keys (map fst (stockQuantities st)).
Proof.
  intros Hq Hne H Hempty.
  unfold handleRemoveSymbol in H.
  destruct (portfolioStocks st); try discriminate.
  destruct (filter_stocks s l); try discriminate.
  injection H as <-. simpl in Hempty.
  destruct (RecoveryFacts.Object_keys_obj_perm (stockQuantities st)) as [keys [Hk Hperm]].
  assert (Hkne : keys <> []).
  { intros ->. apply Hne. apply Permutation_nil in Hperm.
    destruct (stockQuantities st); [reflexivity | discriminate]. }
  exists keys. split; [|split; assumption].
  unfold init_mySymbols. simpl. store_simpl. rewrite Hempty, Hq. cbn -[Object_keys].
  rewrite Hk. destruct keys; [contradiction | reflexivity].
Qed.

Lemma remove_last_symbol_recovered_witness :
  exists st',
  (store saved_state quantities_key = Some (SJson (JObj (stockQuantities saved_state))) /\
   stockQuantities saved_state <> [] /\
   handleRemoveSymbol saved_state "2330" = Some st' /\
   mySymbols st' = []) /\
  exists keys,
    fst (init_mySymbols (store st')) = JArr (map JStr keys) /\ keys <> [] /\
    Permutation keys (map fst (stockQuantities saved_state)).
Proof.
  eexists. split.
  - split; [reflexivity|]. split; [discriminate|]. split; [reflexivity | reflexivity].
  - apply (remove_last_symbol_recovered saved_state _ "2330");
      [reflexivity | discriminate | reflexivity | reflexivity].
Defined.

Lemma filter_nil_all {A} (f : A -> bool) (l : list A) :
  (forall x, In x l -> f x = false) -> filter f l = [].
Proof.
  induction l as [|x l IH]; intros H; simpl; [reflexivity|].
  rewrite (H x (or_introl eq_refl)). apply IH. intros y Hy. apply H. right. exact Hy.
Qed.

Lemma includes_app (l1 l2 : list string) (s : string) :
  includes (l1 ++ l2) s = includes l1 s || includes l2 s.
Proof. unfold includes. apply existsb_app. Qed.

Lemma unique_after_add (st : AppState) :
  uniqueNewSymbols_of (mySymbols (handleAddSymbol st)) (inputSymbol st) = [].
Proof.
  unfold handleAddSymbol.
  destruct (String.eqb_spec (inputSymbol st) "") as [He|Hne].
  - rewrite He. reflexivity.
  - destruct (uniqueNewSymbols_of (mySymbols st) (inputSymbol st)) as [|u us] eqn:U;
      [exact U|].
    simpl. unfold uniqueNewSymbols_of. apply filter_nil_all.
    intros t Ht. rewrite includes_app.
    destruct (includes (mySymbols st) t) eqn:Ei; [reflexivity|].
    assert (Hin : In t (u :: us)).
    { rewrite <- U. unfold uniqueNewSymbols_of. apply filter_In.
      split; [exact Ht | rewrite Ei; reflexivity]. }
    rewrite (includes_In _ _ Hin). reflexivity.
Qed.

(** Submitting the same input a second time adds nothing: the state is
    left as it is. *)
Theorem handleAddSymbol_resubmit (st : AppState) :
  let st1 := handleAddSymbol st in
  handleAddSymbol (with_input st1 (inputSymbol st)) = with_input st1 (inputSymbol st).
Proof.
  cbv zeta. pose proof (unique_after_add st) as U.
  unfold handleAddSymbol at 1. simpl.
  destruct (String.eqb (inputSymbol st) ""); [reflexivity|].
  rewrite U. reflexivity.
Qed.

(** Adding symbols and analysing never change the quantities nor their
    stored copy. *)
Theorem quantities_untouched (st : AppState) :
  (stockQuantities (handleAddSymbol st) = stockQuantities st /\
   store (handleAddSymbol st) quantities_key = store st quantities_key) /\
  (forall hasKey call,
   stockQuantities (handleAnalyzePortfolio st hasKey call) = stockQuantities st /\
   store (handleAnalyzePortfolio st hasKey call) quantities_key = store st quantities_key).
Proof.
  split.
  - unfold handleAddSymbol.
    destruct (String.eqb (inputSymbol st) ""); [split; reflexivity|].
    destruct (uniqueNewSymbols_of (mySymbols st) (inputSymbol st)); [split; reflexivity|].
    simpl. store_simpl. split; reflexivity.
  - intros hasKey call. unfold handleAnalyzePortfolio.
    destruct (mySymbols st); [split; reflexivity|].
    destruct (analyzePortfolio _ hasKey call); simpl; store_simpl; split; reflexivity.
Qed.

(** A stored watch-list that parses to a non-empty array is taken as it
    is, with no recovery and no write. *)
Theorem init_mySymbols_nonempty (st : storage) (x : stored) (l : list jval) :
  st symbols_key = Some x -> truthy_stored x = true -> parse_stored x = Some (JArr l) ->
  l <> [] ->
  init_mySymbols st = (JArr l, st).
Proof.
  intros Hx Ht Hp Hne. unfold init_mySymbols. rewrite Hx, Ht, Hp. simpl.
  destruct l; [contradiction | reflexivity].
Qed.

Lemma init_mySymbols_nonempty_witness :
  (watchlist_storage symbols_key = Some (symbols_json ["2330"%string]) /\
   truthy_stored (symbols_json ["2330"%string]) = true /\
   parse_stored (symbols_json ["2330"%string]) = Some (JArr [JStr "2330"]) /\
   [JStr "2330"] <> []) /\
  init_mySymbols watchlist_storage = (JArr [JStr "2330"], watchlist_storage).
Proof.
  split; [split; [reflexivity | split; [reflexivity | split; [reflexivity | discriminate]]]|].
  apply (init_mySymbols_nonempty watchlist_storage (symbols_json ["2330"%string]));
    [reflexivity | reflexivity | reflexivity | discriminate].
Defined.

End StoreFacts.

Module KeyFacts.
Import ApiKey.

(** [handleSaveApiKey] ignores an input that is blank after trimming;
    otherwise it stores the trimmed key, closes the dialog, and that key
    is the one [getApiKey] returns from then on, whatever the environment
    holds. *)
Theorem handleSaveApiKey_spec (st : storage) (apiKeyInput : string) (e : env) :
  (trim apiKeyInput = ""%string -> handleSaveApiKey st apiKeyInput = (st, false)) /\
  (trim apiKeyInput <> ""%string ->
   snd (handleSaveApiKey st apiKeyInput) = true /\
   getApiKey (fst (handleSaveApiKey st apiKeyInput)) e = Some (SRaw (trim apiKeyInput))).
Proof.
  unfold handleSaveApiKey. split.
  - intros H. rewrite H. reflexivity.
  - intros H. apply String.eqb_neq in H. rewrite H. simpl.
    split; [reflexivity|].
    unfold getApiKey. rewrite StoreFacts.setItem_same. simpl. rewrite H. reflexivity.
Qed.

(** The mount effect opens the key dialog exactly when [getApiKey] finds
    no key (so that every service call would throw). *)
Theorem shows_key_modal_iff_no_key (st : storage) (e : env) :
  shows_key_modal st e = true <-> getApiKey st e = None.
Proof.
  unfold shows_key_modal, getApiKey, env_key.
  destruct (st api_key_name) as [x|]; [destruct (truthy_stored x)|]; simpl;
    [split; discriminate| |];
    destruct (VITE_API_KEY e) as [v|], (API_KEY e) as [a|]; simpl;
    repeat match goal with
           | |- context [String.eqb ?s ""] => destruct (String.eqb s "")
           end; simpl; split; first [reflexivity | discriminate].
Qed.

End KeyFacts.

Module TableFacts.
Import CashSync Table.

Lemma prefix_empty (s : string) : prefix "" s = true.
Proof. destruct s; reflexivity. Qed.

Lemma str_includes_empty (s : string) : str_includes s "" = true.
Proof. destruct s; reflexivity. Qed.

Lemma filteredStocks_no_search (stocks : list StockRow) (f : string) :
  filteredStocks stocks "" f =
  filter (fun s => String.eqb f "ALL" || String.eqb (recommendation s) f) stocks.
Proof.
  unfold filteredStocks. apply filter_ext. intros s.
  change (toLowerCase "") with ""%string. rewrite !str_includes_empty. reflexivity.
Qed.

Lemma fold_total_map (q : list (string * Q)) (l : list StockRow) (a : Q) :
  fold_left (fun sum stock => sum + currentPrice stock * qty_or_zero q (symbol stock)) l a =
  fold_left (fun sum stock => sum + sv_currentPrice stock * qty_or_zero q (sv_symbol stock))
            (map view l) a.
Proof. revert a. induction l as [|x l IH]; intros a; simpl; [reflexivity | apply IH]. Qed.

(** With an empty search and the [ALL] filter the table's total is the
    portfolio value [RetirementCalc] uses. *)
Theorem displayedTotal_unfiltered (stocks : list StockRow) (q : list (string * Q)) :
  displayedTotal (Some q) (filteredStocks stocks "" "ALL") =
  portfolioTotalValue (map view stocks) q.
Proof.
  rewrite filteredStocks_no_search. rewrite filter_ext with (g := fun _ => true)
    by reflexivity.
  rewrite filter_true. apply fold_total_map.
Qed.

Lemma fold_total_shift (q : list (string * Q)) (l : list StockRow) (a : Q) :
  fold_left (fun sum stock => sum + currentPrice stock * qty_or_zero q (symbol stock)) l a ==
  a + fold_left (fun sum stock => sum + currentPrice stock * qty_or_zero q (symbol stock)) l 0.
Proof.
  revert a. induction l as [|x l IH]; intros a; simpl; [ring|].
  rewrite (IH (a + _)), (IH (0 + _)). ring.
Qed.

Lemma displayedTotal_cons (q : list (string * Q)) (x : StockRow) (l : list StockRow) :
  displayedTotal (Some q) (x :: l) ==
  currentPrice x * qty_or_zero q (symbol x) + displayedTotal (Some q) l.
Proof. unfold displayedTotal. simpl. rewrite fold_total_shift. ring. Qed.



Lemma lower_upper (c : ascii) : lower_char (upper_char c) = lower_char c.
Proof. destruct c as [[] [] [] [] [] [] [] []]; reflexivity. Qed.

Lemma toLowerCase_toUpperCase (s : string) : toLowerCase (toUpperCase s) = toLowerCase s.
Proof.
  unfold toLowerCase, toUpperCase. rewrite list_ascii_of_string_of_list_ascii, map_map.
  f_equal. apply map_ext. apply lower_upper.
Qed.

(** The search ignores case: searching for the upper-cased term shows the
    same rows. *)
Theorem filteredStocks_case_insensitive (stocks : list StockRow) (searchTerm filterType : string) :
  filteredStocks stocks (toUpperCase searchTerm) filterType =
  filteredStocks stocks searchTerm filterType.
Proof.
  unfold filteredStocks. rewrite toLowerCase_toUpperCase. reflexivity.
Qed.

End TableFacts.

Module ChartFacts.
Import Chart.

Lemma Qle_bool_false_lt (a b : Q) : Qle_bool a b = false -> b < a.
Proof. intros H. apply Qnot_le_lt. rewrite <- Qle_bool_iff. congruence. Qed.

Lemma clamp_bounds (lo hi e : Q) :
  lo <= hi -> lo <= js_max lo (js_min hi e) <= hi.
Proof.
  intros H. unfold js_max, js_min.
  destruct (Qle_bool hi e) eqn:E1.
  - destruct (Qle_bool hi lo) eqn:E2; split; lra.
  - apply Qle_bool_false_lt in E1.
    destruct (Qle_bool e lo) eqn:E2.
    + apply Qle_bool_iff in E2. split; lra.
    + apply Qle_bool_false_lt in E2. split; lra.
Qed.



End ChartFacts.
